(** * Order service: validation and persistence contract

    A shallow embedding of [app.py] (a Flask application over one SQLite
    table) and the properties of its validator, its store and its three
    request handlers.

    Python values keep their dynamic types ([pyval]); Python [str] is a
    sequence of Unicode code points; Python [float] is IEEE binary64,
    taken from the specification of [SpecFloat]; exceptions are explicit
    ([result]); the database is a list of rows with the AUTOINCREMENT
    counter, and every handler reports the connections it opened and
    closed. *)

From Stdlib Require Import ZArith List String Ascii Bool Lia.
From Stdlib Require Import Floats.SpecFloat.
From Stdlib Require Import DecimalString DecimalZ DecimalPos DecimalN.
From Stdlib Require Import Permutation Sorted.
Import ListNotations.

Local Open Scope Z_scope.

(** ** Python strings *)

(** A Python [str]: the list of its code points. *)
Definition pystr := list Z.

(** A literal of the source, all of whose characters are ASCII. *)
Definition lit (s : string) : pystr :=
  map (fun a => Z.of_N (N_of_ascii a)) (list_ascii_of_string s).

Definition pystr_eqb (s t : pystr) : bool :=
  if list_eq_dec Z.eq_dec s t then true else false.

Lemma pystr_eqb_eq s t : pystr_eqb s t = true <-> s = t.
Proof.
  unfold pystr_eqb. destruct (list_eq_dec Z.eq_dec s t); split; congruence.
Qed.

(** [Py_UNICODE_ISSPACE]: the characters that [str.strip()] removes and
    that [\s] matches in a [str] pattern. *)
Definition Py_UNICODE_ISSPACE (c : Z) : bool :=
  ((9 <=? c) && (c <=? 13)) || ((28 <=? c) && (c <=? 32))
  || (c =? 133) || (c =? 160) || (c =? 5760)
  || ((8192 <=? c) && (c <=? 8202))
  || (c =? 8232) || (c =? 8233) || (c =? 8239) || (c =? 8287)
  || (c =? 12288).

Fixpoint lstrip (s : pystr) : pystr :=
  match s with
  | c :: r => if Py_UNICODE_ISSPACE c then lstrip r else s
  | [] => []
  end.

Definition rstrip (s : pystr) : pystr := rev (lstrip (rev s)).

(** [value.strip()] *)
Definition strip (s : pystr) : pystr := rstrip (lstrip s).

(** The part of the Unicode character database that the program reaches
    through [str.isdigit], [int] and [float].  The tables change with the
    Unicode version of the interpreter, so they are an interface; the laws
    are the entries that every version has. *)
Class UnicodeData := {
  (** [Py_UNICODE_ISDIGIT]: Numeric_Type is Digit or Decimal *)
  Py_UNICODE_ISDIGIT : Z -> bool;
  (** [Py_UNICODE_TODECIMAL]: the value of a decimal digit *)
  Py_UNICODE_TODECIMAL : Z -> option Z;
  isdigit_ascii : forall c, 0 <= c < 128 ->
    Py_UNICODE_ISDIGIT c = ((48 <=? c) && (c <=? 57));
  todecimal_ascii : forall c, 0 <= c < 128 ->
    Py_UNICODE_TODECIMAL c =
      if (48 <=? c) && (c <=? 57) then Some (c - 48) else None;
  todecimal_range : forall c d, Py_UNICODE_TODECIMAL c = Some d -> 0 <= d <= 9;
  todecimal_isdigit : forall c d,
    Py_UNICODE_TODECIMAL c = Some d -> Py_UNICODE_ISDIGIT c = true;
  (** U+00B2 SUPERSCRIPT TWO: a digit that is not a decimal *)
  isdigit_superscript_two :
    Py_UNICODE_ISDIGIT 178 = true /\ Py_UNICODE_TODECIMAL 178 = None;
  (** U+0665 ARABIC-INDIC DIGIT FIVE *)
  todecimal_arabic_indic_five : Py_UNICODE_TODECIMAL 1637 = Some 5
}.

(** One table with these entries: ASCII, the superscripts and the
    Arabic-Indic digits. *)
Definition sample_isdigit (c : Z) : bool :=
  ((48 <=? c) && (c <=? 57)) || (c =? 178) || (c =? 179) || (c =? 185)
  || ((1632 <=? c) && (c <=? 1641)).

Definition sample_todecimal (c : Z) : option Z :=
  if (48 <=? c) && (c <=? 57) then Some (c - 48)
  else if (1632 <=? c) && (c <=? 1641) then Some (c - 1632)
  else None.

#[export, refine] Instance sample_unicode : UnicodeData := {
  Py_UNICODE_ISDIGIT := sample_isdigit;
  Py_UNICODE_TODECIMAL := sample_todecimal
}.
Proof.
  - intros c Hc. unfold sample_isdigit.
    destruct ((48 <=? c) && (c <=? 57)) eqn:E; [reflexivity|].
    replace (c =? 178) with false by lia. replace (c =? 179) with false by lia.
    replace (c =? 185) with false by lia.
    replace (1632 <=? c) with false by lia. reflexivity.
  - intros c Hc. unfold sample_todecimal.
    destruct ((48 <=? c) && (c <=? 57)); [reflexivity|].
    replace (1632 <=? c) with false by lia. reflexivity.
  - intros c d. unfold sample_todecimal.
    destruct ((48 <=? c) && (c <=? 57)) eqn:E1.
    + intros [= <-]. lia.
    + destruct ((1632 <=? c) && (c <=? 1641)) eqn:E2; [|discriminate].
      intros [= <-]. lia.
  - intros c d. unfold sample_todecimal, sample_isdigit.
    destruct ((48 <=? c) && (c <=? 57)) eqn:E1; [reflexivity|].
    destruct ((1632 <=? c) && (c <=? 1641)) eqn:E2; [|discriminate].
    intros _. rewrite !orb_true_r. reflexivity.
  - split; reflexivity.
  - reflexivity.
Defined.

(** ** Python floats: IEEE binary64 *)

Definition prec : Z := 53.
Definition emax : Z := 1024.

Definition float := spec_float.

(** The binary64 number nearest to [n / d] (ties to even), of sign [neg]:
    the quotient is taken with 56 bits or more and the remainder is given
    to the rounding as its location. *)
Definition float_of_ratio (neg : bool) (n d : positive) : float :=
  let s := Z.max 0 (Z.log2 (Zpos d) - Z.log2 (Zpos n) + 56) in
  let q := (Zpos n * 2 ^ s) / Zpos d in
  let r := (Zpos n * 2 ^ s) mod Zpos d in
  let l := if r =? 0 then loc_Exact else loc_Inexact (Z.compare (2 * r) (Zpos d)) in
  binary_round_aux prec emax neg q (- s) l.

(** The binary64 number nearest to an integer. *)
Definition float_of_Z (n : Z) : float := binary_normalize prec emax n 0 false.

(** The float literals of [VALIDATION_RULES]. *)
Definition float_0_01 : float := float_of_ratio false 1 100.
Definition float_1000000 : float := float_of_Z 1000000.

(** [x < y] and [x > y] on floats; both are [False] when either is NaN. *)
Definition float_lt (x y : float) : bool := SFltb x y.
Definition float_gt (x y : float) : bool := SFltb y x.

(** Integer nearest to [n / d] for [d > 0], ties to even. *)
Definition round_half_even (n d : Z) : Z :=
  let q := n / d in
  let r := n mod d in
  match Z.compare (2 * r) d with
  | Lt => q
  | Gt => q + 1
  | Eq => if Z.even q then q else q + 1
  end.

(** [round(num, 2)]: the exact value of the float is rounded to two
    decimals, ties to even, and the decimal is converted back. *)
Definition round2 (x : float) : float :=
  match x with
  | S754_finite s m e =>
      let cents :=
        if 0 <=? e then 100 * Zpos m * 2 ^ e
        else round_half_even (100 * Zpos m) (2 ^ (- e)) in
      match cents with
      | Zpos c => float_of_ratio s c 100
      | _ => S754_zero s
      end
  | _ => x
  end.

(** The integer part of a finite float (truncation toward zero), as
    [int(x)] takes it. *)
Definition float_trunc (x : float) : option Z :=
  match x with
  | S754_zero _ => Some 0
  | S754_finite s m e =>
      let a := if 0 <=? e then Zpos m * 2 ^ e else Zpos m / 2 ^ (- e) in
      Some (if s then - a else a)
  | _ => None
  end.

Definition is_nan (x : float) : bool :=
  match x with S754_nan => true | _ => false end.

Example float_0_01_bits : float_0_01 = S754_finite false 5764607523034235 (-59).
Proof. reflexivity. Qed.

Example float_1000000_bits : float_1000000 = S754_finite false 8589934592000000 (-33).
Proof. reflexivity. Qed.

(** 3.7 as binary64, and its integer part. *)
Example float_3_7 : float_of_ratio false 37 10 = S754_finite false 8331659310635418 (-51)
  /\ float_trunc (float_of_ratio false 37 10) = Some 3.
Proof. split; reflexivity. Qed.

(** round(2.675, 2) is 2.67 and round(0.125, 2) is 0.12. *)
Example round2_samples :
  round2 (float_of_ratio false 2675 1000) = float_of_ratio false 267 100
  /\ round2 (float_of_ratio false 125 1000) = float_of_ratio false 12 100
  /\ round2 (float_of_ratio false 5 1000) = float_0_01
  /\ round2 (float_of_ratio true 1 1000) = S754_zero true.
Proof. repeat split; reflexivity. Qed.

(** ** Python values and exceptions *)

(** The values [request.get_json()] can produce. *)
#[warnings="-register-all"]
Inductive pyval :=
| VNone
| VBool (b : bool)
| VInt (n : Z)
| VFloat (x : float)
| VStr (s : pystr)
| VList (l : list pyval)
| VDict (d : list (pystr * pyval)).

Inductive exn :=
| ValueError
| TypeError
| OverflowError
| UnboundLocalError
| BadRequest            (* werkzeug: the body is not JSON *)
| OperationalError      (* sqlite3: the database cannot be opened, read or written *)
| IntegrityError        (* sqlite3: a constraint of the table failed *)
| InterfaceError        (* sqlite3: a parameter of a type it cannot bind *)
| KeyError
| AttributeError.

(** [sqlite3.Error] and its subclasses. *)
Definition is_sqlite3_Error (e : exn) : bool :=
  match e with
  | OperationalError | IntegrityError | InterfaceError => true
  | _ => false
  end.

Inductive result (A : Type) :=
| Ok (a : A)
| Raise (e : exn).
Arguments Ok {A} a.
Arguments Raise {A} e.

Definition bind {A B} (r : result A) (k : A -> result B) : result B :=
  match r with Ok a => k a | Raise e => Raise e end.

Notation "x <- r ;; k" := (bind r (fun x => k))
  (at level 61, r at next level, right associativity).

(** ** [int(value)] and [float(value)] *)

Definition is_ascii_digit (c : Z) : bool := (48 <=? c) && (c <=? 57).

(** [Py_ISSPACE] *)
Definition Py_ISSPACE (c : Z) : bool := ((9 <=? c) && (c <=? 13)) || (c =? 32).

Fixpoint skip_space (s : pystr) : pystr :=
  match s with
  | c :: r => if Py_ISSPACE c then skip_space r else s
  | [] => []
  end.

Definition value_of_digits (ds : list Z) : Z :=
  fold_left (fun a d => 10 * a + d) ds 0.

(** Digits with single underscores between them: the values of the
    digits read, and what is left. *)
Fixpoint digitpart (s : pystr) (acc : list Z) : list Z * pystr :=
  match s with
  | c :: r =>
      if is_ascii_digit c then digitpart r (acc ++ [c - 48])
      else if c =? 95 then
        match acc, r with
        | _ :: _, c' :: _ => if is_ascii_digit c' then digitpart r acc else (acc, s)
        | _, _ => (acc, s)
        end
      else (acc, s)
  | [] => (acc, [])
  end.

(** An optional sign: [true] for [-]. *)
Definition sign_of (s : pystr) : bool * pystr :=
  match s with
  | c :: r => if c =? 45 then (true, r) else if c =? 43 then (false, r) else (false, s)
  | [] => (false, [])
  end.

Section Conversions.
Context {U : UnicodeData}.

(** [_PyUnicode_TransformDecimalAndSpaceToASCII]: the ASCII characters
    stay, other spaces become a blank, other decimal digits their ASCII
    digit, and anything else a question mark. *)
Definition to_ascii (c : Z) : Z :=
  if c <? 127 then c
  else if Py_UNICODE_ISSPACE c then 32
  else match Py_UNICODE_TODECIMAL c with Some d => 48 + d | None => 63 end.

(** [sys.int_max_str_digits], at the default of the interpreter: the
    digits that [int] converts from a text. *)
Definition int_max_str_digits : Z := 4300.

(** [int(s)] for a [str], base 10.  The digits are counted without the
    sign, the blanks and the underscores, leading zeros included; more
    than [int_max_str_digits] of them is a [ValueError]. *)
Definition int_of_str (s : pystr) : result Z :=
  let '(neg, r) := sign_of (skip_space (map to_ascii s)) in
  match digitpart r [] with
  | ((_ :: _) as ds, rest) =>
      match skip_space rest with
      | [] =>
          if int_max_str_digits <? Z.of_nat (List.length ds) then Raise ValueError
          else Ok (if neg then - value_of_digits ds else value_of_digits ds)
      | _ => Raise ValueError
      end
  | _ => Raise ValueError
  end.

(** [int(value)] *)
Definition py_int (v : pyval) : result Z :=
  match v with
  | VInt n => Ok n
  | VBool b => Ok (if b then 1 else 0)
  | VFloat x =>
      match float_trunc x with
      | Some n => Ok n
      | None => Raise (if is_nan x then ValueError else OverflowError)
      end
  | VStr s => int_of_str s
  | VNone | VList _ | VDict _ => Raise TypeError
  end.

Definition lower (c : Z) : Z := if (65 <=? c) && (c <=? 90) then c + 32 else c.

(** The float of sign [neg] nearest to [m * 10 ^ e]. *)
Definition float_of_decimal (neg : bool) (m e : Z) : float :=
  match m with
  | Zpos p =>
      if 0 <=? e then float_of_ratio neg (p * Z.to_pos (10 ^ e)) 1
      else float_of_ratio neg p (Z.to_pos (10 ^ (- e)))
  | _ => S754_zero neg
  end.

(** The exponent of a float literal, when there is one: [e], a sign and
    digits. *)
Definition exponent_of (s : pystr) : option (Z * pystr) :=
  match s with
  | c :: r =>
      if lower c =? 101 then
        let '(eneg, r') := sign_of r in
        match digitpart r' [] with
        | ((_ :: _) as ds, rest) =>
            Some (if eneg then - value_of_digits ds else value_of_digits ds, rest)
        | _ => None
        end
      else Some (0, s)
  | [] => Some (0, [])
  end.

(** [float(s)] for a [str]. *)
Definition float_of_str (s : pystr) : result float :=
  let '(neg, r) := sign_of (skip_space (map to_ascii s)) in
  let body := map lower (rev (skip_space (rev r))) in
  if pystr_eqb body (lit "nan") then Ok S754_nan
  else if pystr_eqb body (lit "inf") || pystr_eqb body (lit "infinity")
  then Ok (S754_infinity neg)
  else
    let '(ip, r1) := digitpart r [] in
    let '(fp, r2) :=
      match r1 with
      | c :: r' =>
          if c =? 46 then
            match r' with
            | c' :: _ => if c' =? 95 then ([], r') else digitpart r' []
            | [] => ([], [])
            end
          else ([], r1)
      | [] => ([], [])
      end in
    match ip ++ fp with
    | [] => Raise ValueError
    | ds =>
        match exponent_of r2 with
        | Some (e, rest) =>
            match skip_space rest with
            | [] => Ok (float_of_decimal neg (value_of_digits ds) (e - Z.of_nat (List.length fp)))
            | _ => Raise ValueError
            end
        | None => Raise ValueError
        end
    end.

(** [float(value)] *)
Definition py_float (v : pyval) : result float :=
  match v with
  | VFloat x => Ok x
  | VInt n =>
      match float_of_Z n with
      | S754_infinity _ => Raise OverflowError
      | x => Ok x
      end
  | VBool b => Ok (float_of_Z (if b then 1 else 0))
  | VStr s => float_of_str s
  | VNone | VList _ | VDict _ => Raise TypeError
  end.

End Conversions.

Example int_of_str_samples :
  int_of_str (lit " 12 ") = Ok 12 /\ int_of_str (lit "1_000") = Ok 1000
  /\ int_of_str (lit "-0") = Ok 0 /\ int_of_str [1637] = Ok 5
  /\ int_of_str [178] = Raise ValueError /\ int_of_str (lit "1__0") = Raise ValueError
  /\ int_of_str (lit "5.0") = Raise ValueError /\ int_of_str [28; 49] = Raise ValueError
  /\ int_of_str (lit "_1") = Raise ValueError /\ int_of_str (lit "1_") = Raise ValueError
  /\ int_of_str [] = Raise ValueError /\ int_of_str [160; 53; 8195] = Ok 5.
Proof. repeat split; reflexivity. Qed.

Example float_of_str_samples :
  float_of_str (lit "nan") = Ok S754_nan /\ float_of_str (lit "-NaN ") = Ok S754_nan
  /\ float_of_str (lit "+Infinity") = Ok (S754_infinity false)
  /\ float_of_str (lit "infinit") = Raise ValueError
  /\ float_of_str (lit "1.e2") = Ok (float_of_Z 100)
  /\ float_of_str (lit ".5") = Ok (float_of_ratio false 1 2)
  /\ float_of_str (lit ".") = Raise ValueError
  /\ float_of_str (lit "1_0.5_1e1_0") = Ok (float_of_Z 105100000000)
  /\ float_of_str (lit "1e") = Raise ValueError
  /\ float_of_str (lit "1e999") = Ok (S754_infinity false)
  /\ float_of_str (lit "-1e-999") = Ok (S754_zero true)
  /\ float_of_str (lit "1._5") = Raise ValueError
  /\ float_of_str (lit "1_.5") = Raise ValueError
  /\ float_of_str (lit "0.01") = Ok float_0_01
  /\ float_of_str (lit "9.99") = Ok (S754_finite false 5623870034678907 (-49))
  /\ float_of_str (lit "in f") = Raise ValueError.
Proof. repeat split; vm_compute; reflexivity. Qed.

Example py_float_samples :
  py_float (VInt (10 ^ 400)) = Raise OverflowError
  /\ py_float (VInt (2 ^ 1024 - 2 ^ 970)) = Raise OverflowError
  /\ py_float (VInt (2 ^ 1024 - 2 ^ 970 - 1)) = Ok (S754_finite false 9007199254740991 971)
  /\ py_float VNone = Raise TypeError
  /\ py_int (VFloat (S754_infinity false)) = Raise OverflowError
  /\ py_int (VFloat S754_nan) = Raise ValueError.
Proof. repeat split; vm_compute; reflexivity. Qed.

(** ** The validator *)

Inductive field := customer_name | item_name | quantity | total_price.

Definition field_eqb (f g : field) : bool :=
  match f, g with
  | customer_name, customer_name | item_name, item_name
  | quantity, quantity | total_price, total_price => true
  | _, _ => false
  end.

(** The key of a field, as the source writes it. *)
Definition field_name (f : field) : string :=
  match f with
  | customer_name => "customer_name"
  | item_name => "item_name"
  | quantity => "quantity"
  | total_price => "total_price"
  end%string.

Definition is_alnum (c : Z) : bool :=
  ((97 <=? c) && (c <=? 122)) || ((65 <=? c) && (c <=? 90)) || is_ascii_digit c.

(** The class of the customer_name pattern: ASCII letters and digits,
    whitespace, and the period. *)
Definition customer_name_class (c : Z) : bool :=
  is_alnum c || Py_UNICODE_ISSPACE c || (c =? 46).

(** The class of the item_name pattern: ASCII letters and digits,
    whitespace, the apostrophe (39) and the quotation mark (34). *)
Definition item_name_class (c : Z) : bool :=
  is_alnum c || Py_UNICODE_ISSPACE c || (c =? 39) || (c =? 34).

(** [re.match] of a pattern [^[class]+$]: one character or more, all in
    the class.  (The line feed that [$] lets pass at the end is in both
    classes.) *)
Definition re_match (class : Z -> bool) (s : pystr) : bool :=
  match s with [] => false | _ => forallb class s end.

Inductive rule :=
| StrRule (max_length : Z) (pattern : Z -> bool) (error_msg : string)
| IntRule (min max : Z) (error_msg : string)
| FloatRule (min max : float) (error_msg : string).

Definition VALIDATION_RULES (f : field) : rule :=
  match f with
  | customer_name =>
      StrRule 100 customer_name_class
        "Customer name can only have letters, numbers, spaces and periods"
  | item_name =>
      StrRule 200 item_name_class
        "Item name can only have letters, numbers, spaces, and quotes"
  | quantity => IntRule 1 1000 "Quantity must be between 1 and 1000"
  | total_price =>
      FloatRule float_0_01 float_1000000
        "Total price must be between 0.01 and 1,000,000.00"
  end%string.

(** [str(n)] for the integers of the messages. *)
Definition str_of_Z (n : Z) : string := NilZero.string_of_int (Z.to_int n).

Definition len (s : pystr) : Z := Z.of_nat (List.length s).

(** [sanitize_string(value, field_name)].  The type and the emptiness of
    the value are answered before the rules are read; the rules of a
    numeric field have no max_length entry, so a string that is not blank
    raises [KeyError] there (no caller passes a numeric field). *)
Definition sanitize_string (value : pyval) (f : field)
  : result (option pystr * list string) :=
  match value with
  | VStr value =>
      let value := strip value in
      match value with
      | [] => Ok (None, [field_name f ++ " cannot be empty"]%string)
      | _ =>
          match VALIDATION_RULES f with
          | StrRule max_length pattern error_msg =>
              let errors :=
                (if max_length <? len value
                 then [field_name f ++ " cannot exceed " ++ str_of_Z max_length
                         ++ " characters"]%string
                 else [])
                ++ (if re_match pattern value then [] else [error_msg]) in
              Ok (Some value, errors)
          | _ => Raise KeyError
          end
      end
  | _ => Ok (None, [field_name f ++ " should be a string"]%string)
  end.

Section Validator.
Context {U : UnicodeData}.

(** [validate_number(value, field_name)]: [ValueError] and [TypeError] are
    caught, any other exception of the conversion leaves the function. *)
Definition validate_number (value : pyval) (f : field)
  : result (option pyval * list string) :=
  let invalid := Ok (None, ["Invalid " ++ field_name f ++ " format"]%string) in
  let caught (e : exn) :=
    match e with
    | ValueError | TypeError => invalid
    | _ => Raise e
    end in
  if field_eqb f quantity then
    match py_int value with
    | Ok num =>
        match VALIDATION_RULES f with
        | IntRule min max error_msg =>
            if (num <? min) || (max <? num) then Ok (None, [error_msg])
            else Ok (Some (VInt num), [])
        | _ => Raise KeyError
        end
    | Raise e => caught e
    end
  else
    match py_float value with
    | Ok num =>
        let num := round2 num in
        match VALIDATION_RULES f with
        | FloatRule min max error_msg =>
            if float_lt num min || float_gt num max then Ok (None, [error_msg])
            else Ok (Some (VFloat num), [])
        | _ => Raise KeyError
        end
    | Raise e => caught e
    end.

(** [data.get(key)] and [key in data] on a dict. *)
Fixpoint dict_get {A} (d : list (pystr * A)) (k : pystr) : option A :=
  match d with
  | (k', v) :: r => if pystr_eqb k' k then Some v else dict_get r k
  | [] => None
  end.

Definition required_fields : list field :=
  [customer_name; item_name; quantity; total_price].

(** One turn of the two loops of [validate_order_data]. *)
Definition check_field
    (check : pyval -> field -> result (option pyval * list string))
    (data : list (pystr * pyval)) (f : field)
    (st : list (field * pyval) * list string)
  : result (list (field * pyval) * list string) :=
  let '(validated_data, errors) := st in
  let value := match dict_get data (lit (field_name f)) with
               | Some v => v | None => VNone end in
  r <- check value f ;;
  match r with
  | (_, (_ :: _) as field_errors) => Ok (validated_data, errors ++ field_errors)
  | (Some value, []) => Ok (validated_data ++ [(f, value)], errors)
  | (None, []) => Ok (validated_data ++ [(f, VNone)], errors)
  end.

Definition sanitize_string_val (value : pyval) (f : field)
  : result (option pyval * list string) :=
  r <- sanitize_string value f ;;
  Ok (option_map VStr (fst r), snd r).

(** [validate_order_data(data)] *)
Definition validate_order_data (data : pyval)
  : result (option (list (field * pyval)) * list string) :=
  match data with
  | VDict data =>
      let missing_fields :=
        filter (fun f => match dict_get data (lit (field_name f)) with
                         | None => true | Some _ => false end)
               required_fields in
      match missing_fields with
      | _ :: _ =>
          Ok (None, ["Missing required fields: "
                       ++ String.concat ", " (map field_name missing_fields)]%string)
      | [] =>
          st <- check_field sanitize_string_val data customer_name ([], []) ;;
          st <- check_field sanitize_string_val data item_name st ;;
          st <- check_field validate_number data quantity st ;;
          st <- check_field validate_number data total_price st ;;
          match st with
          | (_, (_ :: _) as errors) => Ok (None, errors)
          | (validated_data, []) => Ok (Some validated_data, [])
          end
      end
  | _ => Ok (None, ["Invalid request format. Expected JSON object"]%string)
  end.

End Validator.

(** ** The store: one SQLite table *)

(** A row of [orders].  The columns are NOT NULL (the timestamp has a
    default), so a row holds a value of the declared type in each.
    [created_at] is CURRENT_TIMESTAMP, which has a resolution of one
    second: it is kept as a number of seconds. *)
Record order := {
  id : Z;
  order_customer_name : pystr;
  order_item_name : pystr;
  order_quantity : Z;
  order_total_price : float;
  created_at : Z
}.

(** The table, in rowid order, and the AUTOINCREMENT counter that
    [sqlite_sequence] keeps for it. *)
Record database := {
  orders : list order;
  sqlite_sequence : Z
}.

Definition empty_database : database := {| orders := []; sqlite_sequence := 0 |}.

Definition int64_max : Z := 2 ^ 63 - 1.

(** One [INSERT INTO orders (customer_name, item_name, quantity,
    total_price) VALUES (?, ?, ?, ?)] at the time [now].  The sqlite3
    module refuses an [int] outside 64 bits; SQLite binds a NaN as NULL,
    which the NOT NULL column refuses; AUTOINCREMENT gives the next rowid
    after the largest ever used and fails when there is none left.
    Returns the new table and [cursor.lastrowid]. *)
Definition INSERT (db : database) (now : Z)
    (c i : pystr) (q : Z) (p : float) : result (database * Z) :=
  if (q <? - 2 ^ 63) || (int64_max <? q) then Raise OverflowError
  else if is_nan p then Raise IntegrityError
  else if int64_max <=? sqlite_sequence db then Raise OperationalError
  else
    let rowid := sqlite_sequence db + 1 in
    Ok ({| orders := orders db ++
             [{| id := rowid; order_customer_name := c; order_item_name := i;
                 order_quantity := q; order_total_price := p;
                 created_at := now |}];
           sqlite_sequence := rowid |}, rowid).

(** The rows of [sample_orders]. *)
Definition sample_orders : list (pystr * pystr * Z * float) :=
  [ (lit "Kamrul Islam", lit "MSI Gaming Laptop", 1, float_of_ratio false 129999 100);
    (lit "Alif", lit "Ajazz Ak870 Pro Keybaord", 2, float_of_ratio false 4998 100);
    (lit "Fatema Tuz Johra", lit "Dareu Ak950Pro Gaming Mouse", 1,
       float_of_ratio false 5999 100);
    (lit "Riha", lit "Walton Monitor 27 inche", 2, float_of_ratio false 59998 100);
    (lit "Mehedi HasaN", lit "USB-C Cable", 3, float_of_ratio false 2997 100) ].

(** [cursor.executemany]: the statement once per row; [now k] is the
    time at the [k]-th. *)
Fixpoint executemany (db : database) (now : nat -> Z) (k : nat)
    (rows : list (pystr * pystr * Z * float)) : result database :=
  match rows with
  | [] => Ok db
  | (c, i, q, p) :: rest =>
      r <- INSERT db (now k) c i q p ;;
      executemany (fst r) now (S k) rest
  end.

(** [init_database()]: on a file without the table ([None]) the table is
    created; the samples go into an empty table only. *)
Definition init_database (file : option database) (now : nat -> Z)
  : result database :=
  let db := match file with Some db => db | None => empty_database end in
  match orders db with
  | [] => executemany db now 0 sample_orders
  | _ :: _ => Ok db
  end.

(** [ORDER BY created_at DESC].  There is no index on the column, so
    SQLite reads the table in rowid order and sorts it; its sorter keeps
    rows of equal key in the order it read them. *)
Fixpoint insert_desc (o : order) (l : list order) : list order :=
  match l with
  | [] => [o]
  | x :: r =>
      if created_at x <=? created_at o then o :: l else x :: insert_desc o r
  end.

Definition order_by_created_at_desc (l : list order) : list order :=
  fold_right insert_desc [] l.

(** The integer that the text bound to [WHERE id = ?] is compared as:
    the column has INTEGER affinity, so a text that is a decimal literal
    is converted; one that does not fit 64 bits becomes a REAL larger
    than every rowid, and any other text equals no integer.  (The texts
    that reach the query satisfy [str.isdigit], so signs, blanks and
    fractions do not occur.) *)
Definition rowid_of_text (s : pystr) : option Z :=
  match s with
  | [] => None
  | _ =>
      if forallb is_ascii_digit s then
        let n := value_of_digits (map (fun c => c - 48) s) in
        if n <=? int64_max then Some n else None
      else None
  end.

(** [SELECT * FROM orders WHERE id = ?] and [fetchone()]. *)
Definition select_by_id (db : database) (order_id : pystr) : option order :=
  match rowid_of_text order_id with
  | Some n => find (fun o => id o =? n) (orders db)
  | None => None
  end.

(** ** Responses *)

Inductive json :=
| JString (s : string)
| JStrings (l : list string)
| JInteger (n : Z).

(** The body of a response: [jsonify] of a dict literal, of one row or
    of the list of rows, or the page Flask writes itself. *)
Inductive payload :=
| JObject (members : list (string * json))
| JRow (o : order)
| JRows (l : list order)
| HtmlPage.

Record response := { body : payload; status : Z }.

Definition columns : list string :=
  ["id"; "customer_name"; "item_name"; "quantity"; "total_price"; "created_at"]%string.

(** The keys of the JSON object of a response (none for an array). *)
Definition keys (p : payload) : list string :=
  match p with
  | JObject members => map fst members
  | JRow _ => columns
  | JRows _ | HtmlPage => []
  end.

Definition has_key (k : string) (p : payload) : bool :=
  existsb (String.eqb k) (keys p).

Definition error_response (msg : string) (code : Z) : response :=
  {| body := JObject [("error"%string, JString msg)]; status := code |}.

(** ** Handlers: a frame with the local name [conn] *)

(** The local variable [conn] of a handler: not assigned yet, [None], or
    a connection. *)
Inductive local := Unbound | BoundNone | BoundConnection.

(** The state a handler runs in: the database file, its local [conn],
    and the connections opened and closed so far. *)
Record frame := {
  file : database;
  conn : local;
  opened : nat;
  closed : nat
}.

(** What the environment decides during one request: whether the file
    can be opened, read and committed, and the time of the clock. *)
Record io := {
  connect_fails : bool;
  execute_fails : bool;
  commit_fails : bool;
  now : Z
}.

Definition M (A : Type) : Type := frame -> result A * frame.

Definition ret {A} (a : A) : M A := fun s => (Ok a, s).
Definition raise {A} (e : exn) : M A := fun s => (Raise e, s).

Definition mbind {A B} (m : M A) (k : A -> M B) : M B :=
  fun s => match m s with
           | (Ok a, s') => k a s'
           | (Raise e, s') => (Raise e, s')
           end.

Notation "x <-- m ;;; k" := (mbind m (fun x => k))
  (at level 61, m at next level, right associativity).
Notation "m ;;; k" := (mbind m (fun _ => k))
  (at level 61, right associativity).

(** [try: body except ...: handler] *)
Definition try_except {A} (body : M A) (handler : exn -> M A) : M A :=
  fun s => match body s with
           | (Raise e, s') => handler e s'
           | r => r
           end.

(** [try: body finally: cleanup]: the cleanup runs on every exit of the
    body, and an exception of the cleanup replaces the outcome. *)
Definition try_finally {A} (body : M A) (cleanup : M unit) : M A :=
  fun s => let '(r, s') := body s in
           match cleanup s' with
           | (Ok _, s'') => (r, s'')
           | (Raise e, s'') => (Raise e, s'')
           end.

Definition lift {A} (r : result A) : M A := fun s => (r, s).

(** [conn = None] *)
Definition assign_None : M unit :=
  fun s => (Ok tt, {| file := file s; conn := BoundNone;
                      opened := opened s; closed := closed s |}).

(** [conn = sqlite3.connect(DB_PATH)].  A frame holds the table of a
    database file that exists when the request starts ([init_database]
    has run); the empty file that [sqlite3.connect] creates at a path
    where there is none is not a state of the frame, and no statement
    here is about a request on a missing file. *)
Definition connect (w : io) : M unit :=
  fun s => if connect_fails w then (Raise OperationalError, s)
           else (Ok tt, {| file := file s; conn := BoundConnection;
                           opened := S (opened s); closed := closed s |}).

(** [conn.close()]: reading a local that was never assigned raises
    [UnboundLocalError]. *)
Definition conn_close : M unit :=
  fun s => match conn s with
           | Unbound => (Raise UnboundLocalError, s)
           | BoundNone => (Raise AttributeError, s)
           | BoundConnection =>
               (Ok tt, {| file := file s; conn := conn s;
                          opened := opened s; closed := S (closed s) |})
           end.

(** [if conn: conn.close()] *)
Definition close_if_conn : M unit :=
  fun s => match conn s with
           | Unbound => (Raise UnboundLocalError, s)
           | BoundNone => (Ok tt, s)
           | BoundConnection => conn_close s
           end.

(** A read of the table through the cursor. *)
Definition execute_select {A} (w : io) (q : database -> A) : M A :=
  fun s => if execute_fails w then (Raise OperationalError, s)
           else (Ok (q (file s)), s).

(** [str.isdigit()]: one character or more, all of them digits. *)
Definition isdigit {U : UnicodeData} (s : pystr) : bool :=
  match s with [] => false | _ => forallb Py_UNICODE_ISDIGIT s end.

(** The truth value of a Python value, as [not data] takes it. *)
Definition truthy (v : pyval) : bool :=
  match v with
  | VNone => false
  | VBool b => b
  | VInt n => negb (n =? 0)
  | VFloat (S754_zero _) => false
  | VFloat _ => true
  | VStr s => match s with [] => false | _ => true end
  | VList l => match l with [] => false | _ => true end
  | VDict d => match d with [] => false | _ => true end
  end.

(** [d[key]] on the dict of validated fields. *)
Fixpoint getitem (d : list (field * pyval)) (f : field) : result pyval :=
  match d with
  | (g, v) :: r => if field_eqb g f then Ok v else getitem r f
  | [] => Raise KeyError
  end.

Section Handlers.
Context {U : UnicodeData}.

(** [GET /orders] *)
Definition get_orders (w : io) : M response :=
  try_finally
    (try_except
       (connect w ;;;
        rows <-- execute_select w (fun db => order_by_created_at_desc (orders db)) ;;;
        ret {| body := JRows rows; status := 200 |})
       (fun _ => ret (error_response "Failed to fetch" 500)))
    conn_close.

(** [GET /orders/<order_id>] *)
Definition get_order (w : io) (order_id : pystr) : M response :=
  try_finally
    (try_except
       (if negb (isdigit order_id)
        then ret (error_response "Invalid order ID format" 400)
        else
          connect w ;;;
          row <-- execute_select w (fun db => select_by_id db order_id) ;;;
          match row with
          | None => ret (error_response "Order not found" 404)
          | Some o => ret {| body := JRow o; status := 200 |}
          end)
       (fun _ => ret (error_response "Failed to fetch details" 500)))
    conn_close.

(** The INSERT of [create_order] and [conn.commit()].  The four values
    are taken from the dict of validated fields; [validate_order_data]
    stores a [str], a [str], an [int] and a [float] there
    ([validate_order_data_accepted]), so no other type is bound. *)
Definition execute_insert (w : io) (validated_data : list (field * pyval)) : M Z :=
  c <-- lift (getitem validated_data customer_name) ;;;
  i <-- lift (getitem validated_data item_name) ;;;
  q <-- lift (getitem validated_data quantity) ;;;
  p <-- lift (getitem validated_data total_price) ;;;
  match c, i, q, p with
  | VStr c, VStr i, VInt q, VFloat p =>
      fun s =>
        if execute_fails w then (Raise OperationalError, s)
        else match INSERT (file s) (now w) c i q p with
             | Raise e => (Raise e, s)
             | Ok (db', order_id) =>
                 if commit_fails w then (Raise OperationalError, s)
                 else (Ok order_id,
                       {| file := db'; conn := conn s;
                          opened := opened s; closed := closed s |})
             end
  | _, _, _, _ => raise InterfaceError
  end.

(** [POST /orders]; [json] is what [request.get_json()] does: the parsed
    body, or the exception it raises on a body that is not JSON. *)
Definition create_order (w : io) (json : result pyval) : M response :=
  assign_None ;;;
  try_finally
    (try_except
       (data <-- lift json ;;;
        if negb (truthy data)
        then ret (error_response "No provided data" 400)
        else
          r <-- lift (validate_order_data data) ;;;
          match r with
          | (_, (_ :: _) as errors) =>
              ret {| body := JObject [("errors"%string, JStrings errors)];
                     status := 400 |}
          | (None, []) => raise TypeError
          | (Some validated_data, []) =>
              connect w ;;;
              order_id <-- execute_insert w validated_data ;;;
              ret {| body := JObject
                               [("message"%string, JString "Order successfully created");
                                ("order_id"%string, JInteger order_id)];
                     status := 201 |}
          end)
       (fun e =>
          if is_sqlite3_Error e
          then ret (error_response "Database error occurred" 500)
          else ret (error_response "Failed to create the order" 500)))
    close_if_conn.

End Handlers.

(** What Flask answers when a view function raises: 500, with its own
    page. *)
Definition internal_server_error : response :=
  {| body := HtmlPage; status := 500 |}.

(** A request from start to answer: the handler runs in a fresh frame on
    the current file. *)
Definition start (db : database) : frame :=
  {| file := db; conn := Unbound; opened := 0; closed := 0 |}.

Definition dispatch (h : M response) (db : database) : response * frame :=
  match h (start db) with
  | (Ok r, s) => (r, s)
  | (Raise _, s) => (internal_server_error, s)
  end.

(** * Properties *)

(** ** Lookup by id *)

Section Lookup.
Context {U : UnicodeData}.

Lemma isdigit_abc : isdigit (lit "abc") = false.
Proof.
  unfold isdigit, lit; simpl.
  rewrite (isdigit_ascii 97) by lia. reflexivity.
Qed.

Lemma isdigit_superscript : isdigit [178] = true.
Proof.
  unfold isdigit; simpl. destruct isdigit_superscript_two as [-> _]. reflexivity.
Qed.

Lemma isdigit_arabic_indic : isdigit [1637] = true.
Proof.
  unfold isdigit; simpl.
  rewrite (todecimal_isdigit 1637 5 todecimal_arabic_indic_five). reflexivity.
Qed.

(** When the id is not made of digits, the handler computes the 400
    response, and its [finally] then reads [conn], which was never
    assigned: the request ends in [UnboundLocalError]. *)
Lemma get_order_malformed (w : io) (order_id : pystr) (db : database) :
  isdigit order_id = false ->
  get_order w order_id (start db) = (Raise UnboundLocalError, start db).
Proof.
  intros H. unfold get_order, try_finally, try_except. rewrite H. reflexivity.
Qed.

(** A digit-only id with no row: 404, and the connection is closed. *)
Lemma get_order_not_found (w : io) (order_id : pystr) (db : database) :
  isdigit order_id = true ->
  connect_fails w = false -> execute_fails w = false ->
  select_by_id db order_id = None ->
  get_order w order_id (start db)
  = (Ok (error_response "Order not found" 404),
     {| file := db; conn := BoundConnection; opened := 1; closed := 1 |}).
Proof.
  intros Hd Hc He Hs.
  unfold get_order, try_finally, try_except, mbind, connect, execute_select.
  rewrite Hd, Hc; simpl. rewrite He, Hs. reflexivity.
Qed.

(** A digit-only id with a row: 200 and the row. *)
Lemma get_order_found (w : io) (order_id : pystr) (db : database) (o : order) :
  isdigit order_id = true ->
  connect_fails w = false -> execute_fails w = false ->
  select_by_id db order_id = Some o ->
  get_order w order_id (start db)
  = (Ok {| body := JRow o; status := 200 |},
     {| file := db; conn := BoundConnection; opened := 1; closed := 1 |}).
Proof.
  intros Hd Hc He Hs.
  unfold get_order, try_finally, try_except, mbind, connect, execute_select.
  rewrite Hd, Hc; simpl. rewrite He, Hs. reflexivity.
Qed.

(** C3.  For an id that [isdigit] rejects, such as [abc], the request is
    answered 500 and not 400: the 400 response that the handler builds is
    lost when its cleanup raises. *)
Theorem get_order_malformed_id_is_500 (w : io) (order_id : pystr) (db : database) :
  isdigit order_id = false ->
  dispatch (get_order w order_id) db = (internal_server_error, start db)
  /\ status (fst (dispatch (get_order w order_id) db)) = 500.
Proof.
  intros H. unfold dispatch. rewrite (get_order_malformed w order_id db H).
  split; reflexivity.
Qed.

(** C10.  [str.isdigit] accepts digits that are not ASCII, such as the
    superscript two and the Arabic-Indic five.  For every id that
    [isdigit] accepts and that has a character other than an ASCII digit,
    the malformed-id branch is not taken, the lookup runs and finds no
    row: 404, not 400. *)
Theorem get_order_unicode_digit_not_found (w : io) (db : database) :
  connect_fails w = false -> execute_fails w = false ->
  (isdigit [178] = true /\ forallb is_ascii_digit [178] = false)
  /\ (isdigit [1637] = true /\ forallb is_ascii_digit [1637] = false)
  /\ fst (dispatch (get_order w [178]) db) = error_response "Order not found" 404
  /\ fst (dispatch (get_order w [1637]) db) = error_response "Order not found" 404
  /\ forall order_id,
       isdigit order_id = true -> forallb is_ascii_digit order_id = false ->
       fst (dispatch (get_order w order_id) db)
       = error_response "Order not found" 404
       /\ status (fst (dispatch (get_order w order_id) db)) <> 400.
Proof.
  intros Hc He.
  assert (G : forall order_id,
             isdigit order_id = true -> forallb is_ascii_digit order_id = false ->
             fst (dispatch (get_order w order_id) db)
             = error_response "Order not found" 404).
  { intros order_id Hd Ha. unfold dispatch.
    rewrite (get_order_not_found w order_id db Hd Hc He); [reflexivity|].
    unfold select_by_id, rowid_of_text. rewrite Ha.
    destruct order_id; reflexivity. }
  split; [split; [exact isdigit_superscript|reflexivity]|].
  split; [split; [exact isdigit_arabic_indic|reflexivity]|].
  split; [apply G; [exact isdigit_superscript|reflexivity]|].
  split; [apply G; [exact isdigit_arabic_indic|reflexivity]|].
  intros order_id Hd Ha. rewrite (G order_id Hd Ha).
  split; [reflexivity|discriminate].
Qed.

End Lookup.

Definition calm : io :=
  {| connect_fails := false; execute_fails := false; commit_fails := false;
     now := 1700000000 |}.

Lemma get_order_malformed_id_is_500_witness :
  isdigit (lit "abc") = false
  /\ dispatch (get_order calm (lit "abc")) empty_database
     = (internal_server_error, start empty_database)
  /\ status (fst (dispatch (get_order calm (lit "abc")) empty_database)) = 500.
Proof.
  split; [reflexivity|].
  apply (get_order_malformed_id_is_500 calm (lit "abc") empty_database).
  reflexivity.
Defined.

(** ** Connections *)

Section Connections.
Context {U : UnicodeData}.

(** A frame leaks nothing when every connection it opened is closed. *)
Definition released (s : frame) : Prop := closed s = opened s.

(** [GET /orders] with a file that opens: one connection, closed on
    both exits, and the handler returns. *)
Lemma get_orders_releases (w : io) (db : database) :
  connect_fails w = false ->
  exists r s, get_orders w (start db) = (Ok r, s)
              /\ opened s = 1%nat /\ released s /\ file s = db.
Proof.
  intros Hc. unfold get_orders, try_finally, try_except, mbind, connect,
    execute_select, released.
  rewrite Hc; simpl. destruct (execute_fails w); simpl; eauto 10.
Qed.

(** [GET /orders/<id>] with a digit-only id and a file that opens. *)
Lemma get_order_releases (w : io) (order_id : pystr) (db : database) :
  isdigit order_id = true -> connect_fails w = false ->
  exists r s, get_order w order_id (start db) = (Ok r, s)
              /\ opened s = 1%nat /\ released s /\ file s = db.
Proof.
  intros Hd Hc. unfold get_order, try_finally, try_except, mbind, connect,
    execute_select, released.
  rewrite Hd, Hc; simpl. destruct (execute_fails w); simpl; eauto 10.
  destruct (select_by_id db order_id); simpl; eauto 10.
Qed.

(** The cleanup of [create_order] is guarded ([conn = None] first, then
    [if conn:]): it never raises. *)
Lemma close_if_conn_after_None (s : frame) :
  conn s <> Unbound -> exists s', close_if_conn s = (Ok tt, s')
    /\ file s' = file s /\ opened s' = opened s
    /\ closed s' = match conn s with
                   | BoundConnection => S (closed s) | _ => closed s end.
Proof.
  unfold close_if_conn, conn_close. destruct (conn s) eqn:E; intros H.
  - congruence.
  - eauto.
  - eexists; repeat split.
Qed.

(** C4.  When the file cannot be opened, the cleanup of the two GET
    handlers raises: [conn] is assigned inside the [try], so [finally]
    reads an unbound local.  The same happens in [get_order] for an id
    that is not made of digits ([get_order_malformed]). *)
Theorem cleanup_raises_without_connection
    (w : io) (order_id : pystr) (db : database) :
  connect_fails w = true ->
  get_orders w (start db) = (Raise UnboundLocalError, start db)
  /\ get_order w order_id (start db) = (Raise UnboundLocalError, start db).
Proof.
  intros Hc. split.
  - unfold get_orders, try_finally, try_except, mbind, connect.
    rewrite Hc. reflexivity.
  - unfold get_order, try_finally, try_except, mbind, connect.
    destruct (isdigit order_id); simpl; [rewrite Hc|]; reflexivity.
Qed.

End Connections.

Definition offline : io :=
  {| connect_fails := true; execute_fails := false; commit_fails := false;
     now := 1700000000 |}.

Lemma cleanup_raises_without_connection_witness :
  connect_fails offline = true
  /\ get_orders offline (start empty_database)
     = (Raise UnboundLocalError, start empty_database)
  /\ get_order offline (lit "1") (start empty_database)
     = (Raise UnboundLocalError, start empty_database).
Proof.
  split; [reflexivity|].
  apply (cleanup_raises_without_connection offline (lit "1") empty_database).
  reflexivity.
Defined.

(** ** The field constraints of a stored order *)

Definition float_eqb (x y : float) : bool :=
  match x, y with
  | S754_zero a, S754_zero b | S754_infinity a, S754_infinity b => Bool.eqb a b
  | S754_nan, S754_nan => true
  | S754_finite a m e, S754_finite b n f => Bool.eqb a b && Pos.eqb m n && (e =? f)
  | _, _ => false
  end.

(** A name of a row: trimmed, of 1 to [max_length] characters, all in
    the class of its field. *)
Definition valid_name (class : Z -> bool) (max_length : Z) (s : pystr) : bool :=
  pystr_eqb (strip s) s && (1 <=? len s) && (len s <=? max_length)
  && re_match class s.

(** A price of a row: from 0.01 to 1000000.00, with two decimals. *)
Definition valid_price (p : float) : bool :=
  SFleb float_0_01 p && SFleb p float_1000000 && float_eqb (round2 p) p.

(** The constraints of the data model on one row. *)
Definition valid_order (o : order) : bool :=
  valid_name customer_name_class 100 (order_customer_name o)
  && valid_name item_name_class 200 (order_item_name o)
  && (1 <=? order_quantity o) && (order_quantity o <=? 1000)
  && valid_price (order_total_price o).

(** C1.  The bootstrap stores five rows without validating them, and the
    fifth does not satisfy the constraints: the hyphen of its item name is
    outside the class of the field, and the validator itself rejects the
    name. *)
Theorem seed_row_fails_validation (now : nat -> Z) :
  exists db,
    init_database None now = Ok db
    /\ map id (orders db) = [1; 2; 3; 4; 5]
    /\ map valid_order (orders db) = [true; true; true; true; false]
    /\ map order_item_name (skipn 4 (orders db)) = [lit "USB-C Cable"]
    /\ sanitize_string (VStr (lit "USB-C Cable")) item_name
       = Ok (Some (lit "USB-C Cable"),
             ["Item name can only have letters, numbers, spaces, and quotes"%string]).
Proof.
  eexists. split; [reflexivity|].
  repeat split; vm_compute; reflexivity.
Qed.

(** The bootstrap does not run twice: on a table that has rows,
    [init_database] changes nothing. *)
Lemma init_database_idempotent (now now' : nat -> Z) (db : database) :
  init_database None now = Ok db -> init_database (Some db) now' = Ok db.
Proof.
  intros H. assert (E : exists o l, orders db = o :: l).
  { vm_compute in H. injection H as H. rewrite <- H. simpl. eauto. }
  destruct E as (o & l & E). unfold init_database. rewrite E. reflexivity.
Qed.

(** ** The validator, field by field *)

Lemma lstrip_app_last (l : pystr) (c : Z) :
  Py_UNICODE_ISSPACE c = false -> lstrip (l ++ [c]) = lstrip l ++ [c].
Proof.
  intros Hc. induction l as [|x l IH]; simpl.
  - rewrite Hc. reflexivity.
  - destruct (Py_UNICODE_ISSPACE x); [exact IH|reflexivity].
Qed.

Lemma lstrip_head (s : pystr) :
  lstrip s = [] \/ exists c r, lstrip s = c :: r /\ Py_UNICODE_ISSPACE c = false.
Proof.
  induction s as [|x s IH]; simpl; [left; reflexivity|].
  destruct (Py_UNICODE_ISSPACE x) eqn:E; [exact IH|right; eauto].
Qed.

Lemma lstrip_idem (s : pystr) : lstrip (lstrip s) = lstrip s.
Proof.
  destruct (lstrip_head s) as [->|(c & r & -> & Hc)]; simpl;
    [|rewrite Hc]; reflexivity.
Qed.

Lemma rstrip_cons (c : Z) (r : pystr) :
  Py_UNICODE_ISSPACE c = false -> rstrip (c :: r) = c :: rstrip r.
Proof.
  intros Hc. unfold rstrip; simpl. rewrite (lstrip_app_last _ _ Hc).
  rewrite rev_app_distr. reflexivity.
Qed.

Lemma rstrip_idem (s : pystr) : rstrip (rstrip s) = rstrip s.
Proof. unfold rstrip. rewrite rev_involutive, lstrip_idem. reflexivity. Qed.

(** [strip] yields a trimmed string: stripping it again changes nothing. *)
Lemma strip_idem (s : pystr) : strip (strip s) = strip s.
Proof.
  unfold strip. destruct (lstrip_head s) as [->|(c & r & -> & Hc)].
  - reflexivity.
  - rewrite (rstrip_cons c r Hc). simpl. rewrite Hc.
    rewrite (rstrip_cons c _ Hc), rstrip_idem. reflexivity.
Qed.

(** The maximal length and the class of a string field. *)
Definition max_length_of (f : field) : Z :=
  match VALIDATION_RULES f with StrRule n _ _ => n | _ => 0 end.

Definition class_of (f : field) : Z -> bool :=
  match VALIDATION_RULES f with StrRule _ c _ => c | _ => fun _ => false end.

Definition is_string_field (f : field) : bool :=
  match f with customer_name | item_name => true | _ => false end.

(** A string within the bounds of its field is accepted as its trimmed
    value. *)
Lemma sanitize_string_accepts (f : field) (raw : pystr) :
  is_string_field f = true ->
  strip raw <> [] -> len (strip raw) <= max_length_of f ->
  re_match (class_of f) (strip raw) = true ->
  sanitize_string (VStr raw) f = Ok (Some (strip raw), []).
Proof.
  intros Hf Hne Hlen Hre.
  destruct f; try discriminate; unfold sanitize_string; simpl;
    unfold max_length_of, class_of in *; simpl in *;
    (destruct (strip raw) as [|c r] eqn:E; [congruence|]);
    rewrite Hre; (replace (_ <? _) with false by lia); reflexivity.
Qed.

(** Conversely, what [sanitize_string] accepts is a string within the
    bounds, and the value it returns is the trimmed string. *)
Lemma sanitize_string_accepted (f : field) (v : pyval) (s : pystr) :
  sanitize_string v f = Ok (Some s, []) ->
  is_string_field f = true
  /\ exists raw, v = VStr raw /\ s = strip raw /\ s <> []
     /\ len s <= max_length_of f /\ re_match (class_of f) s = true.
Proof.
  unfold sanitize_string, max_length_of, class_of.
  destruct v; try discriminate.
  destruct (strip s0) as [|c r] eqn:E; [discriminate|].
  destruct f; cbn [VALIDATION_RULES is_string_field]; try discriminate;
    (destruct (_ <? _) eqn:L; [discriminate|]);
    (destruct (re_match _ _) eqn:R; [|discriminate]);
    cbn [app]; intros [= <-]; (split; [reflexivity|]);
    exists s0; rewrite E; repeat split; try congruence; lia.
Qed.

Section ValidatorFacts.
Context {U : UnicodeData}.

(** A value that converts to an integer from 1 to 1000 is accepted as
    that integer. *)
Lemma validate_quantity_accepts (v : pyval) (n : Z) :
  py_int v = Ok n -> 1 <= n <= 1000 ->
  validate_number v quantity = Ok (Some (VInt n), []).
Proof.
  intros Hv Hn. unfold validate_number; simpl. rewrite Hv.
  replace (n <? 1) with false by lia. replace (1000 <? n) with false by lia.
  reflexivity.
Qed.

Lemma validate_quantity_accepted (v x : pyval) :
  validate_number v quantity = Ok (Some x, []) ->
  exists n, x = VInt n /\ py_int v = Ok n /\ 1 <= n <= 1000.
Proof.
  unfold validate_number; simpl. destruct (py_int v) as [n|e].
  - destruct ((n <? 1) || (1000 <? n)) eqn:E; [discriminate|].
    intros [= <-]. exists n. repeat split; lia.
  - destruct e; discriminate.
Qed.

(** A value that converts to a float whose rounding to two decimals is
    neither below 0.01 nor above 1000000.00 is accepted as the rounded
    float. *)
Lemma validate_total_price_accepts (v : pyval) (y : float) :
  py_float v = Ok y ->
  float_lt (round2 y) float_0_01 = false ->
  float_gt (round2 y) float_1000000 = false ->
  validate_number v total_price = Ok (Some (VFloat (round2 y)), []).
Proof.
  intros Hv Hlo Hhi. unfold validate_number; simpl. rewrite Hv.
  change (float_of_ratio false 1 100) with float_0_01.
  change (float_of_Z 1000000) with float_1000000.
  rewrite Hlo, Hhi. reflexivity.
Qed.

Lemma validate_total_price_accepted (v x : pyval) :
  validate_number v total_price = Ok (Some x, []) ->
  exists y, py_float v = Ok y /\ x = VFloat (round2 y)
    /\ float_lt (round2 y) float_0_01 = false
    /\ float_gt (round2 y) float_1000000 = false.
Proof.
  unfold validate_number; simpl. destruct (py_float v) as [y|e].
  - fold float_0_01. fold float_1000000.
    destruct (float_lt (round2 y) float_0_01) eqn:E1; [discriminate|].
    destruct (float_gt (round2 y) float_1000000) eqn:E2; [discriminate|].
    intros [= <-]. exists y. repeat split; assumption.
  - destruct e; discriminate.
Qed.

End ValidatorFacts.

(** ** The validator on a whole record *)

(** The value of a key of the body. *)
Definition lookup (d : list (pystr * pyval)) (f : field) : option pyval :=
  dict_get d (lit (field_name f)).

Section RecordFacts.
Context {U : UnicodeData}.

Lemma check_field_accepts check d f v x validated_data errors :
  lookup d f = Some v -> check v f = Ok (Some x, []) ->
  check_field check d f (validated_data, errors)
  = Ok (validated_data ++ [(f, x)], errors).
Proof.
  unfold lookup, check_field. intros -> H. unfold bind. rewrite H. reflexivity.
Qed.

Lemma sanitize_string_val_accepts v f s :
  sanitize_string v f = Ok (Some s, []) ->
  sanitize_string_val v f = Ok (Some (VStr s), []).
Proof. unfold sanitize_string_val, bind. intros ->. reflexivity. Qed.

Lemma missing_fields_nil d vc vi vq vp :
  lookup d customer_name = Some vc -> lookup d item_name = Some vi ->
  lookup d quantity = Some vq -> lookup d total_price = Some vp ->
  filter (fun f => match dict_get d (lit (field_name f)) with
                   | None => true | Some _ => false end) required_fields = [].
Proof.
  unfold lookup, required_fields. intros Hc Hi Hq Hp.
  cbn [filter]. rewrite Hc, Hi, Hq, Hp. reflexivity.
Qed.

(** When the four keys are present and each field check accepts its
    value, [validate_order_data] returns the four accepted values and no
    error. *)
Lemma validate_order_data_accepts d vc vi vq vp c i q p :
  lookup d customer_name = Some vc -> lookup d item_name = Some vi ->
  lookup d quantity = Some vq -> lookup d total_price = Some vp ->
  sanitize_string vc customer_name = Ok (Some c, []) ->
  sanitize_string vi item_name = Ok (Some i, []) ->
  validate_number vq quantity = Ok (Some q, []) ->
  validate_number vp total_price = Ok (Some p, []) ->
  validate_order_data (VDict d)
  = Ok (Some [(customer_name, VStr c); (item_name, VStr i);
              (quantity, q); (total_price, p)], []).
Proof.
  intros Hc Hi Hq Hp Sc Si Nq Np. unfold validate_order_data.
  rewrite (missing_fields_nil d vc vi vq vp Hc Hi Hq Hp).
  rewrite (check_field_accepts _ d customer_name vc (VStr c) [] [] Hc
             (sanitize_string_val_accepts _ _ _ Sc)).
  cbn [bind app].
  rewrite (check_field_accepts _ d item_name vi (VStr i) _ [] Hi
             (sanitize_string_val_accepts _ _ _ Si)).
  cbn [bind app].
  rewrite (check_field_accepts _ d quantity vq q _ [] Hq Nq).
  cbn [bind app].
  rewrite (check_field_accepts _ d total_price vp p _ [] Hp Np).
  reflexivity.
Qed.

End RecordFacts.

Section RecordInversion.
Context {U : UnicodeData}.

(** One turn of the loops, by the outcome of the field check. *)
Lemma check_field_spec check d f v validated_data errors :
  lookup d f = Some v ->
  check_field check d f (validated_data, errors)
  = match check v f with
    | Raise e => Raise e
    | Ok (r, []) =>
        Ok (validated_data
              ++ [(f, match r with Some x => x | None => VNone end)], errors)
    | Ok (_, e :: es) => Ok (validated_data, errors ++ e :: es)
    end.
Proof.
  unfold lookup, check_field, bind. intros ->.
  destruct (check v f) as [[[x|] [|e es]]|e]; reflexivity.
Qed.

Lemma sanitize_string_val_spec v f :
  sanitize_string_val v f
  = match sanitize_string v f with
    | Ok (r, e) => Ok (option_map VStr r, e)
    | Raise e => Raise e
    end.
Proof.
  unfold sanitize_string_val, bind.
  destruct (sanitize_string v f) as [[r e]|e]; reflexivity.
Qed.

(** A field check that reports no error returns a value. *)
Lemma sanitize_string_no_error v f r :
  sanitize_string v f = Ok (r, []) -> exists s, r = Some s.
Proof.
  unfold sanitize_string. destruct v; try discriminate.
  destruct (strip s) as [|c t]; [discriminate|].
  destruct (VALIDATION_RULES f); try discriminate.
  intros [= <- _]. eauto.
Qed.

Lemma validate_number_no_error v f r :
  validate_number v f = Ok (r, []) -> exists x, r = Some x.
Proof.
  unfold validate_number. destruct (field_eqb f quantity).
  - destruct (py_int v) as [n|e]; [|destruct e; discriminate].
    destruct (VALIDATION_RULES f); try discriminate.
    destruct (_ || _); [discriminate|]. intros [= <-]. eauto.
  - destruct (py_float v) as [y|e]; [|destruct e; discriminate].
    destruct (VALIDATION_RULES f); try discriminate.
    destruct (_ || _); [discriminate|]. intros [= <-]. eauto.
Qed.

End RecordInversion.

Section Aggregation.
Context {U : UnicodeData}.

Definition value_or_None (r : option pyval) : pyval :=
  match r with Some x => x | None => VNone end.

(** [validate_order_data] on a body that has the four keys: the four
    field checks all run, in order, each on its own value; their error
    lists are concatenated, and the record is returned when the
    concatenation is empty.  Only an exception of a check stops the
    others. *)
Lemma validate_order_data_present d vc vi vq vp :
  lookup d customer_name = Some vc -> lookup d item_name = Some vi ->
  lookup d quantity = Some vq -> lookup d total_price = Some vp ->
  validate_order_data (VDict d)
  = (rc <- sanitize_string vc customer_name ;;
     ri <- sanitize_string vi item_name ;;
     rq <- validate_number vq quantity ;;
     rp <- validate_number vp total_price ;;
     match snd rc ++ snd ri ++ snd rq ++ snd rp with
     | [] => Ok (Some [(customer_name, value_or_None (option_map VStr (fst rc)));
                       (item_name, value_or_None (option_map VStr (fst ri)));
                       (quantity, value_or_None (fst rq));
                       (total_price, value_or_None (fst rp))], [])
     | errors => Ok (None, errors)
     end).
Proof.
  intros Hc Hi Hq Hp. unfold validate_order_data.
  rewrite (missing_fields_nil d vc vi vq vp Hc Hi Hq Hp).
  rewrite (check_field_spec _ _ _ _ _ _ Hc), sanitize_string_val_spec.
  destruct (sanitize_string vc customer_name) as [[rc [|e1 es1]]|x1];
    cbn [bind fst snd app option_map]; [| |reflexivity];
  (rewrite (check_field_spec _ _ _ _ _ _ Hi), sanitize_string_val_spec;
   destruct (sanitize_string vi item_name) as [[ri [|e2 es2]]|x2];
     cbn [bind fst snd app option_map]; [| |reflexivity];
   (rewrite (check_field_spec _ _ _ _ _ _ Hq);
    destruct (validate_number vq quantity) as [[rq [|e3 es3]]|x3];
      cbn [bind fst snd app option_map]; [| |reflexivity];
    (rewrite (check_field_spec _ _ _ _ _ _ Hp);
     destruct (validate_number vp total_price) as [[rp [|e4 es4]]|x4];
       cbn [bind fst snd app option_map value_or_None];
       rewrite <- ?app_assoc, ?app_nil_r; cbn [app];
       rewrite ?app_nil_r; reflexivity))).
Qed.

End Aggregation.

(** ** Comparison of floats *)

Lemma SFcompare_antisym (x y : float) :
  SFcompare y x = option_map CompOpp (SFcompare x y).
Proof.
  destruct x as [a|a| |a m e], y as [b|b| |b n f]; simpl; try reflexivity;
    try (destruct a; reflexivity); try (destruct b; reflexivity);
    try (destruct a, b; reflexivity).
  assert (P : Pos.compare_cont Eq n m = CompOpp (Pos.compare_cont Eq m n)).
  { rewrite (Pos.compare_cont_antisym m n Eq). reflexivity. }
  destruct a, b; simpl; try reflexivity;
    rewrite (Z.compare_antisym f e); destruct (f ?= e); simpl;
    rewrite ?P, ?CompOpp_involutive; reflexivity.
Qed.


(** For numbers that are not NaN, not below is above or equal. *)
Lemma SFltb_false_SFleb (x y : float) :
  is_nan x = false -> is_nan y = false -> SFltb x y = false -> SFleb y x = true.
Proof.
  unfold SFleb, SFltb. rewrite (SFcompare_antisym x y).
  intros Hx Hy. assert (E : exists c, SFcompare x y = Some c).
  { destruct x, y; simpl in *; try discriminate; eauto. }
  destruct E as (c & ->). destruct c; simpl; congruence.
Qed.

(** ** Valid input *)


(** The body [{customer_name: " Bob ", item_name: "Widget", quantity: 1,
    total_price: 9.987}]. *)
Definition bob_widget : list (pystr * pyval) :=
  [ (lit "customer_name", VStr (lit " Bob "));
    (lit "item_name", VStr (lit "Widget"));
    (lit "quantity", VInt 1);
    (lit "total_price", VFloat (float_of_ratio false 9987 1000)) ].


(** ** Values that the validator lets through *)

Section LetThrough.
Context {U : UnicodeData}.

(** The two names of a body are present and valid. *)
Definition valid_names (d : list (pystr * pyval)) (raw_customer raw_item : pystr)
  : Prop :=
  lookup d customer_name = Some (VStr raw_customer)
  /\ lookup d item_name = Some (VStr raw_item)
  /\ strip raw_customer <> [] /\ len (strip raw_customer) <= 100
  /\ re_match customer_name_class (strip raw_customer) = true
  /\ strip raw_item <> [] /\ len (strip raw_item) <= 200
  /\ re_match item_name_class (strip raw_item) = true.

(** The quantity of a body is present and converts to [n], from 1 to
    1000. *)
Definition valid_quantity (d : list (pystr * pyval)) (n : Z) : Prop :=
  exists vq, lookup d quantity = Some vq /\ py_int vq = Ok n /\ 1 <= n <= 1000.


Lemma valid_names_accepted d rc ri :
  valid_names d rc ri ->
  sanitize_string (VStr rc) customer_name = Ok (Some (strip rc), [])
  /\ sanitize_string (VStr ri) item_name = Ok (Some (strip ri), []).
Proof.
  intros (_ & _ & C1 & C2 & C3 & I1 & I2 & I3).
  split; apply sanitize_string_accepts; auto.
Qed.


End LetThrough.

(** The body [{customer_name: "Bob", item_name: "Widget", quantity: 3.7,
    total_price: 9.99}]. *)
Definition bob_3_7 : list (pystr * pyval) :=
  [ (lit "customer_name", VStr (lit "Bob"));
    (lit "item_name", VStr (lit "Widget"));
    (lit "quantity", VFloat (float_of_ratio false 37 10));
    (lit "total_price", VFloat (float_of_ratio false 999 100)) ].

Lemma bob_names (q p : pyval) :
  valid_names [ (lit "customer_name", VStr (lit "Bob"));
                (lit "item_name", VStr (lit "Widget"));
                (lit "quantity", q); (lit "total_price", p) ]
              (lit "Bob") (lit "Widget").
Proof.
  unfold valid_names.
  repeat split; try reflexivity; try (vm_compute; discriminate).
Qed.


(** The record of the body with the quantity 3.7 holds 3. *)
Example quantity_3_7_recorded_as_3 :
  float_trunc (float_of_ratio false 37 10) = Some 3
  /\ validate_order_data (VDict bob_3_7)
     = Ok (Some [(customer_name, VStr (lit "Bob"));
                 (item_name, VStr (lit "Widget"));
                 (quantity, VInt 3);
                 (total_price, VFloat (float_of_ratio false 999 100))], []).
Proof. split; vm_compute; reflexivity. Qed.



(** ** Creation *)

Definition database_error : response := error_response "Database error occurred" 500.

Definition created (order_id : Z) : response :=
  {| body := JObject [("message"%string, JString "Order successfully created");
                      ("order_id"%string, JInteger order_id)];
     status := 201 |}.

(** The frame at the end of a request that opened one connection. *)
Definition closed_frame (db : database) : frame :=
  {| file := db; conn := BoundConnection; opened := 1; closed := 1 |}.

Section Creation.
Context {U : UnicodeData}.

(** [create_order] on a body that the validator accepts, by what the
    environment and the INSERT do. *)
Lemma create_order_validated (w : io) (data : pyval) (c i : pystr) (q : Z)
    (p : float) (db : database) :
  truthy data = true ->
  validate_order_data data
  = Ok (Some [(customer_name, VStr c); (item_name, VStr i);
              (quantity, VInt q); (total_price, VFloat p)], []) ->
  create_order w (Ok data) (start db)
  = if connect_fails w
    then (Ok database_error,
          {| file := db; conn := BoundNone; opened := 0; closed := 0 |})
    else if execute_fails w then (Ok database_error, closed_frame db)
    else match INSERT db (now w) c i q p with
         | Raise e =>
             (Ok (if is_sqlite3_Error e then database_error
                  else error_response "Failed to create the order" 500),
              closed_frame db)
         | Ok (db', order_id) =>
             if commit_fails w then (Ok database_error, closed_frame db)
             else (Ok (created order_id), closed_frame db')
         end.
Proof.
  intros Ht Hv.
  unfold create_order, execute_insert.
  unfold try_finally, try_except, mbind, assign_None, lift,
    connect, close_if_conn, conn_close, ret, raise.
  cbn [file conn opened closed start]. rewrite Ht. cbn [negb]. rewrite Hv.
  destruct (connect_fails w); [reflexivity|].
  cbn [getitem field_eqb file conn opened closed].
  destruct (execute_fails w); [reflexivity|].
  destruct (INSERT db (now w) c i q p) as [[db' order_id]|e].
  - destruct (commit_fails w); reflexivity.
  - destruct (is_sqlite3_Error e); reflexivity.
Qed.

End Creation.

Section NaN.
Context {U : UnicodeData}.

(** The INSERT of a NaN price fails on the NOT NULL column. *)
Lemma INSERT_nan (db : database) (t : Z) (c i : pystr) (q : Z) :
  1 <= q <= 1000 -> INSERT db t c i q S754_nan = Raise IntegrityError.
Proof.
  intros Hq. unfold INSERT, int64_max.
  replace (q <? - 2 ^ 63) with false by lia.
  replace (2 ^ 63 - 1 <? q) with false by lia. reflexivity.
Qed.

Lemma truthy_present (d : list (pystr * pyval)) (f : field) (v : pyval) :
  lookup d f = Some v -> truthy (VDict d) = true.
Proof. destruct d; [discriminate|reflexivity]. Qed.

Lemma py_float_nan_string : py_float (VStr (lit "nan")) = Ok S754_nan.
Proof. vm_compute. reflexivity. Qed.

(** C8, as the code has it.  When the price is the string [nan] or a
    float NaN and the other fields are valid, the validator reports no
    error and records NaN (both comparisons of the range check are false
    for NaN); the order is then not stored: SQLite binds NaN as NULL, the
    NOT NULL column refuses it, and the request is answered 500 with the
    table unchanged. *)
Theorem nan_price_validated_not_stored
    (w : io) (d : list (pystr * pyval)) (raw_customer raw_item : pystr)
    (n : Z) (vp : pyval) (db : database) :
  valid_names d raw_customer raw_item ->
  valid_quantity d n ->
  lookup d total_price = Some vp ->
  vp = VStr (lit "nan") \/ vp = VFloat S754_nan ->
  validate_order_data (VDict d)
  = Ok (Some [(customer_name, VStr (strip raw_customer));
              (item_name, VStr (strip raw_item));
              (quantity, VInt n);
              (total_price, VFloat S754_nan)], [])
  /\ fst (dispatch (create_order w (Ok (VDict d))) db) = database_error
  /\ file (snd (dispatch (create_order w (Ok (VDict d))) db)) = db.
Proof.
  intros Hn (vq & Hq & Qi & Qr) Hp Hnan.
  destruct (valid_names_accepted _ _ _ Hn) as [Sc Si].
  assert (Hv : validate_order_data (VDict d)
    = Ok (Some [(customer_name, VStr (strip raw_customer));
                (item_name, VStr (strip raw_item));
                (quantity, VInt n);
                (total_price, VFloat S754_nan)], [])).
  { destruct Hn as (Hc & Hi & _).
    apply (validate_order_data_accepts d _ _ vq vp _ _ _ _ Hc Hi Hq Hp Sc Si).
    - apply validate_quantity_accepts; assumption.
    - change (VFloat S754_nan) with (VFloat (round2 S754_nan)).
      apply validate_total_price_accepts; try reflexivity.
      destruct Hnan as [-> | ->]; [exact py_float_nan_string|reflexivity]. }
  split; [exact Hv|].
  unfold dispatch.
  rewrite (create_order_validated w _ _ _ _ _ db (truthy_present _ _ _ Hp) Hv).
  rewrite (INSERT_nan db (now w) _ _ n Qr).
  destruct (connect_fails w), (execute_fails w); split; reflexivity.
Qed.

End NaN.

(** The body [{customer_name: "Bob", item_name: "Widget", quantity: 1,
    total_price: "nan"}]. *)
Definition bob_nan : list (pystr * pyval) :=
  [ (lit "customer_name", VStr (lit "Bob"));
    (lit "item_name", VStr (lit "Widget"));
    (lit "quantity", VInt 1);
    (lit "total_price", VStr (lit "nan")) ].

Lemma nan_price_validated_not_stored_witness :
  validate_order_data (VDict bob_nan)
  = Ok (Some [(customer_name, VStr (lit "Bob"));
              (item_name, VStr (lit "Widget"));
              (quantity, VInt 1);
              (total_price, VFloat S754_nan)], [])
  /\ fst (dispatch (create_order calm (Ok (VDict bob_nan))) empty_database)
     = database_error
  /\ file (snd (dispatch (create_order calm (Ok (VDict bob_nan))) empty_database))
     = empty_database.
Proof.
  apply (nan_price_validated_not_stored calm bob_nan (lit "Bob") (lit "Widget")
           1 (VStr (lit "nan")) empty_database).
  - apply bob_names.
  - exists (VInt 1). repeat split; try reflexivity; lia.
  - reflexivity.
  - left. reflexivity.
Defined.

(** C8, counterexample.  The order with the price [nan] passes the
    validator and is not stored: the answer is 500, not 201, and the
    table stays empty. *)
Lemma nan_order_is_not_persisted :
  snd (match validate_order_data (VDict bob_nan) with
       | Ok r => r | Raise _ => (None, ["raised"%string]) end) = []
  /\ ~ (status (fst (dispatch (create_order calm (Ok (VDict bob_nan)))
                       empty_database)) = 201)
  /\ orders (file (snd (dispatch (create_order calm (Ok (VDict bob_nan)))
                          empty_database))) = [].
Proof.
  split; [vm_compute; reflexivity|].
  split; [vm_compute; discriminate|vm_compute; reflexivity].
Qed.

(** ** The responses of POST /orders *)

(** The three shapes of a response of [create_order]. *)
Inductive create_response : response -> Prop :=
| cr_error (msg : string) (code : Z) :
    create_response (error_response msg code)
| cr_errors (e : string) (es : list string) :
    create_response
      {| body := JObject [("errors"%string, JStrings (e :: es))]; status := 400 |}
| cr_created (order_id : Z) : create_response (created order_id).

Section Post.
Context {U : UnicodeData}.

(** The INSERT step leaves the local [conn] and the count of connections
    as they are. *)
Lemma execute_insert_frame (w : io) (vd : list (field * pyval)) (s : frame) :
  exists r s', execute_insert w vd s = (r, s')
    /\ conn s' = conn s /\ opened s' = opened s /\ closed s' = closed s.
Proof.
  unfold execute_insert, mbind, lift, raise.
  destruct (getitem vd customer_name) as [c|]; [|eauto 10].
  destruct (getitem vd item_name) as [i|]; [|eauto 10].
  destruct (getitem vd quantity) as [q|]; [|eauto 10].
  destruct (getitem vd total_price) as [p|]; [|eauto 10].
  destruct c; eauto 10. destruct i; eauto 10.
  destruct q; eauto 10. destruct p; eauto 10.
  destruct (execute_fails w); [eauto 10|].
  destruct (INSERT _ _ _ _ _ _) as [[db' k]|e]; [|eauto 10].
  destruct (commit_fails w); eauto 10.
Qed.

(** [create_order] always returns (its cleanup is guarded), with a
    response of one of the three shapes, and with every connection it
    opened closed. *)
Lemma create_order_returns (w : io) (json : result pyval) (db : database) :
  exists r s, create_order w json (start db) = (Ok r, s)
    /\ create_response r /\ released s.
Proof.
  unfold create_order.
  unfold try_finally, try_except, mbind, assign_None, lift, connect,
    close_if_conn, conn_close, ret, raise, released.
  cbn [file conn opened closed start].
  destruct json as [data|e].
  2:{ destruct (is_sqlite3_Error e); do 2 eexists;
      (split; [reflexivity|split; [constructor|reflexivity]]). }
  destruct (truthy data); cbn [negb].
  2:{ do 2 eexists. split; [reflexivity|split; [constructor|reflexivity]]. }
  destruct (validate_order_data data) as [[r [|e es]]|e].
  - destruct r as [vd|].
    + destruct (connect_fails w).
      * do 2 eexists. split; [reflexivity|split; [constructor|reflexivity]].
      * match goal with |- context [execute_insert w vd ?s0] =>
          destruct (execute_insert_frame w vd s0) as (x & s' & -> & Hc & Ho & Hk)
        end.
        cbn [conn opened closed] in Hc, Ho, Hk.
        destruct x as [k|e]; [|destruct (is_sqlite3_Error e)];
          rewrite Hc; do 2 eexists;
          (split; [reflexivity|split; [constructor|cbn; congruence]]).
    + do 2 eexists. split; [reflexivity|split; [constructor|reflexivity]].
  - destruct r; do 2 eexists;
      (split; [reflexivity|split; [constructor|reflexivity]]).
  - destruct (is_sqlite3_Error e); do 2 eexists;
      (split; [reflexivity|split; [constructor|reflexivity]]).
Qed.

End Post.

Section PostErrors.
Context {U : UnicodeData}.

Lemma create_order_falsy (w : io) (data : pyval) (db : database) :
  truthy data = false ->
  create_order w (Ok data) (start db)
  = (Ok (error_response "No provided data" 400),
     {| file := db; conn := BoundNone; opened := 0; closed := 0 |}).
Proof.
  intros H. unfold create_order.
  unfold try_finally, try_except, mbind, assign_None, lift, close_if_conn, ret.
  cbn [file conn opened closed start]. rewrite H. reflexivity.
Qed.

Lemma create_order_rejected (w : io) (data : pyval) (db : database)
    (res : option (list (field * pyval))) (e : string) (es : list string) :
  truthy data = true ->
  validate_order_data data = Ok (res, e :: es) ->
  create_order w (Ok data) (start db)
  = (Ok {| body := JObject [("errors"%string, JStrings (e :: es))];
           status := 400 |},
     {| file := db; conn := BoundNone; opened := 0; closed := 0 |}).
Proof.
  intros H Hv. unfold create_order.
  unfold try_finally, try_except, mbind, assign_None, lift, close_if_conn, ret.
  cbn [file conn opened closed start]. rewrite H, Hv. cbn [negb].
  destruct res; reflexivity.
Qed.

Lemma create_order_no_json (w : io) (e : exn) (db : database) :
  create_order w (Raise e) (start db)
  = (Ok (if is_sqlite3_Error e then database_error
         else error_response "Failed to create the order" 500),
     {| file := db; conn := BoundNone; opened := 0; closed := 0 |}).
Proof.
  unfold create_order.
  unfold try_finally, try_except, mbind, assign_None, lift, close_if_conn, ret.
  cbn [file conn opened closed start]. destruct (is_sqlite3_Error e); reflexivity.
Qed.

(** C7, as the code has it.  A body that is missing or empty (falsy) is
    answered 400 with the single message under [error]; a body on which
    the validator reports errors is answered 400 with the list under
    [errors]; a body that is not JSON makes [get_json] raise and is
    answered 500 with [error]; and no response of the handler has both
    keys. *)
Theorem create_order_error_responses
    (w : io) (json : result pyval) (db : database) :
  (forall data, json = Ok data -> truthy data = false ->
     fst (dispatch (create_order w json) db)
     = error_response "No provided data" 400)
  /\ (forall data res e es, json = Ok data -> truthy data = true ->
        validate_order_data data = Ok (res, e :: es) ->
        fst (dispatch (create_order w json) db)
        = {| body := JObject [("errors"%string, JStrings (e :: es))];
             status := 400 |})
  /\ (forall e, json = Raise e ->
        status (fst (dispatch (create_order w json) db)) = 500
        /\ has_key "error" (body (fst (dispatch (create_order w json) db))) = true)
  /\ (has_key "error" (body (fst (dispatch (create_order w json) db)))
      && has_key "errors" (body (fst (dispatch (create_order w json) db)))
      = false).
Proof.
  unfold dispatch. repeat split.
  - intros data -> H. rewrite (create_order_falsy w data db H). reflexivity.
  - intros data res e es -> H Hv.
    rewrite (create_order_rejected w data db res e es H Hv). reflexivity.
  - rewrite H, create_order_no_json. destruct (is_sqlite3_Error e); reflexivity.
  - rewrite H, create_order_no_json. destruct (is_sqlite3_Error e); reflexivity.
  - destruct (create_order_returns w json db) as (r & s & -> & Hr & _).
    destruct Hr; reflexivity.
Qed.

End PostErrors.

(** C7, counterexample.  The bodies [{}] and [null] are answered 400
    under the key [error], not [errors]; a body that is not JSON is
    answered 500. *)
Lemma empty_body_answered_with_error_key :
  fst (dispatch (create_order calm (Ok (VDict []))) empty_database)
  = error_response "No provided data" 400
  /\ has_key "errors"
       (body (fst (dispatch (create_order calm (Ok (VDict []))) empty_database)))
     = false
  /\ fst (dispatch (create_order calm (Ok VNone)) empty_database)
     = error_response "No provided data" 400
  /\ status (fst (dispatch (create_order calm (Raise BadRequest)) empty_database))
     = 500.
Proof. repeat split. Qed.

(** ** Round trip: create, then get by id *)

(** [str(n)] of an integer: its decimal digits. *)
Fixpoint digits_of_uint (d : Decimal.uint) : pystr :=
  match d with
  | Decimal.Nil => []
  | Decimal.D0 d => 48 :: digits_of_uint d
  | Decimal.D1 d => 49 :: digits_of_uint d
  | Decimal.D2 d => 50 :: digits_of_uint d
  | Decimal.D3 d => 51 :: digits_of_uint d
  | Decimal.D4 d => 52 :: digits_of_uint d
  | Decimal.D5 d => 53 :: digits_of_uint d
  | Decimal.D6 d => 54 :: digits_of_uint d
  | Decimal.D7 d => 55 :: digits_of_uint d
  | Decimal.D8 d => 56 :: digits_of_uint d
  | Decimal.D9 d => 57 :: digits_of_uint d
  end.

Definition str (n : Z) : pystr :=
  match n with
  | Z0 => [48]
  | Zpos p => digits_of_uint (Pos.to_uint p)
  | Zneg p => 45 :: digits_of_uint (Pos.to_uint p)
  end.

Example str_samples : str 7 = lit "7" /\ str 1203 = lit "1203" /\ str (-45) = lit "-45".
Proof. repeat split. Qed.

Definition digit_values (s : pystr) : list Z := map (fun c => c - 48) s.

Lemma digits_all_ascii (d : Decimal.uint) :
  forallb is_ascii_digit (digits_of_uint d) = true.
Proof. induction d; simpl; auto. Qed.

Lemma value_acc (d : Decimal.uint) (acc : positive) :
  fold_left (fun a x => 10 * a + x) (digit_values (digits_of_uint d)) (Zpos acc)
  = Zpos (Pos.of_uint_acc d acc).
Proof.
  revert acc. induction d; intros acc;
    cbn [digits_of_uint digit_values map fold_left Pos.of_uint_acc];
    try reflexivity; fold (digit_values (digits_of_uint d));
    rewrite <- IHd; apply f_equal; lia.
Qed.

Lemma value_of_uint (d : Decimal.uint) :
  value_of_digits (digit_values (digits_of_uint d)) = Z.of_N (Pos.of_uint d).
Proof.
  unfold value_of_digits. induction d; simpl; try reflexivity;
    try exact IHd; apply (value_acc d).
Qed.

(** Reading back the digits of a positive integer gives the integer. *)
Lemma value_of_str (p : positive) :
  value_of_digits (digit_values (str (Zpos p))) = Zpos p.
Proof.
  unfold str. rewrite value_of_uint, DecimalPos.Unsigned.of_to. reflexivity.
Qed.

Lemma str_positive_nonempty (p : positive) : str (Zpos p) <> [].
Proof.
  intros E. pose proof (value_of_str p) as H. rewrite E in H. discriminate H.
Qed.

(** The text of a rowid is compared as that rowid. *)
Lemma rowid_of_text_str (n : Z) :
  1 <= n <= int64_max -> rowid_of_text (str n) = Some n.
Proof.
  intros Hn. destruct n as [|p|p]; try lia.
  unfold rowid_of_text. pose proof (str_positive_nonempty p) as Hne.
  destruct (str (Zpos p)) as [|c r] eqn:E; [congruence|]. rewrite <- E.
  unfold str at 1. rewrite digits_all_ascii.
  fold (digit_values (str (Zpos p))). rewrite value_of_str.
  replace (Zpos p <=? int64_max) with true by lia. reflexivity.
Qed.

Lemma isdigit_str {U : UnicodeData} (n : Z) : 1 <= n -> isdigit (str n) = true.
Proof.
  intros Hn. destruct n as [|p|p]; try lia.
  unfold isdigit. pose proof (str_positive_nonempty p) as Hne.
  destruct (str (Zpos p)) as [|c r] eqn:E; [congruence|]. rewrite <- E.
  unfold str. generalize (Pos.to_uint p). intros d.
  induction d; simpl; try reflexivity;
    rewrite isdigit_ascii by lia; simpl; exact IHd.
Qed.

(** The invariant of the table: the rowids in use are positive and not
    above the AUTOINCREMENT counter. *)
Definition ids_bounded (db : database) : Prop :=
  0 <= sqlite_sequence db
  /\ Forall (fun o => 1 <= id o <= sqlite_sequence db) (orders db).

(** A successful INSERT appends one row, numbered one above the counter. *)
Lemma INSERT_ok (db db' : database) (t : Z) (c i : pystr) (q : Z) (p : float)
    (k : Z) :
  INSERT db t c i q p = Ok (db', k) ->
  k = sqlite_sequence db + 1 /\ k <= int64_max /\ is_nan p = false
  /\ db' = {| orders := orders db ++
                [{| id := k; order_customer_name := c; order_item_name := i;
                    order_quantity := q; order_total_price := p;
                    created_at := t |}];
              sqlite_sequence := k |}.
Proof.
  unfold INSERT. destruct ((q <? - 2 ^ 63) || (int64_max <? q)); [discriminate|].
  destruct (is_nan p); [discriminate|].
  destruct (int64_max <=? sqlite_sequence db) eqn:E; [discriminate|].
  intros [= <- <-]. repeat split; lia.
Qed.

Lemma INSERT_keeps_ids_bounded (db db' : database) (t : Z) (c i : pystr)
    (q : Z) (p : float) (k : Z) :
  ids_bounded db -> INSERT db t c i q p = Ok (db', k) -> ids_bounded db'.
Proof.
  intros [H0 HF] H. destruct (INSERT_ok _ _ _ _ _ _ _ _ H) as (-> & _ & _ & ->).
  split; simpl; [lia|]. apply Forall_app. split.
  - eapply Forall_impl; [|exact HF]. simpl. intros o Ho. lia.
  - constructor; [simpl; lia|constructor].
Qed.

Lemma find_appended (l : list order) (o : order) :
  Forall (fun x => id x < id o) l ->
  find (fun x => id x =? id o) (l ++ [o]) = Some o.
Proof.
  induction 1 as [|x l Hx _ IH]; simpl.
  - rewrite Z.eqb_refl. reflexivity.
  - replace (id x =? id o) with false by lia. exact IH.
Qed.

Section RoundTrip.
Context {U : UnicodeData}.

(** C6.  When [create_order] answers 201 with an id for a record that
    the validator accepted, [get_order] on the text of that id (with a
    database that can be opened and read) answers 200 with a row that has
    the id and the four fields of the record. *)
Theorem create_then_get
    (w w' : io) (data : pyval) (c i : pystr) (q : Z) (p : float)
    (db : database) (order_id : Z) (s : frame) :
  ids_bounded db ->
  truthy data = true ->
  validate_order_data data
  = Ok (Some [(customer_name, VStr c); (item_name, VStr i);
              (quantity, VInt q); (total_price, VFloat p)], []) ->
  dispatch (create_order w (Ok data)) db = (created order_id, s) ->
  connect_fails w' = false -> execute_fails w' = false ->
  exists o,
    fst (dispatch (get_order w' (str order_id)) (file s))
    = {| body := JRow o; status := 200 |}
    /\ id o = order_id
    /\ order_customer_name o = c /\ order_item_name o = i
    /\ order_quantity o = q /\ order_total_price o = p.
Proof.
  intros [H0 HF] Ht Hv Hc Hw1 Hw2. unfold dispatch in Hc.
  rewrite (create_order_validated w data c i q p db Ht Hv) in Hc.
  destruct (connect_fails w); [discriminate|].
  destruct (execute_fails w); [discriminate|].
  destruct (INSERT db (now w) c i q p) as [[db' k]|e] eqn:EI.
  2:{ destruct (is_sqlite3_Error e); discriminate. }
  destruct (commit_fails w); [discriminate|].
  injection Hc as Hk Hs. subst k. subst s. cbn [file closed_frame].
  destruct (INSERT_ok _ _ _ _ _ _ _ _ EI) as (Ek & Hmax & _ & ->).
  set (o := {| id := order_id; order_customer_name := c; order_item_name := i;
               order_quantity := q; order_total_price := p;
               created_at := now w |}).
  exists o. split; [|repeat split].
  assert (Hid : 1 <= order_id <= int64_max) by lia.
  unfold dispatch.
  rewrite (get_order_found w' (str order_id) _ o); try assumption.
  - reflexivity.
  - apply isdigit_str. lia.
  - unfold select_by_id. rewrite (rowid_of_text_str order_id Hid).
    cbn [orders]. change order_id with (id o) at 1. apply find_appended.
    eapply Forall_impl; [|exact HF]. simpl. intros x Hx. lia.
Qed.

End RoundTrip.

Lemma ids_bounded_empty : ids_bounded empty_database.
Proof. split; [simpl; lia|constructor]. Qed.

Lemma create_then_get_witness :
  exists o,
    fst (dispatch (get_order calm (str 1))
           (file (snd (dispatch (create_order calm (Ok (VDict bob_widget)))
                         empty_database))))
    = {| body := JRow o; status := 200 |}
    /\ id o = 1
    /\ order_customer_name o = lit "Bob" /\ order_item_name o = lit "Widget"
    /\ order_quantity o = 1
    /\ order_total_price o = float_of_ratio false 999 100.
Proof.
  apply (create_then_get calm calm (VDict bob_widget) (lit "Bob") (lit "Widget")
           1 (float_of_ratio false 999 100) empty_database 1
           (snd (dispatch (create_order calm (Ok (VDict bob_widget)))
                   empty_database))).
  - exact ids_bounded_empty.
  - reflexivity.
  - vm_compute. reflexivity.
  - vm_compute. reflexivity.
  - reflexivity.
  - reflexivity.
Defined.

(** ** Listing *)

(** [a] is not older than [b]. *)
Definition newer_or_same (a b : order) : Prop := created_at b <= created_at a.

Lemma insert_desc_perm (o : order) (l : list order) :
  Permutation (insert_desc o l) (o :: l).
Proof.
  induction l as [|x l IH]; simpl; [reflexivity|].
  destruct (created_at x <=? created_at o); [reflexivity|].
  rewrite IH. apply perm_swap.
Qed.

Lemma order_by_perm (l : list order) :
  Permutation (order_by_created_at_desc l) l.
Proof.
  induction l as [|o l IH]; simpl; [reflexivity|].
  rewrite insert_desc_perm. constructor. exact IH.
Qed.

Lemma insert_desc_sorted (o : order) (l : list order) :
  StronglySorted newer_or_same l -> StronglySorted newer_or_same (insert_desc o l).
Proof.
  induction 1 as [|x l Hs IH Hx]; simpl.
  - constructor; constructor.
  - destruct (created_at x <=? created_at o) eqn:E.
    + constructor; [constructor; assumption|].
      constructor; [unfold newer_or_same; lia|].
      eapply Forall_impl; [|exact Hx]. unfold newer_or_same. intros y Hy. lia.
    + constructor; [exact IH|].
      apply (Permutation_Forall (Permutation_sym (insert_desc_perm o l))).
      constructor; [unfold newer_or_same; lia|exact Hx].
Qed.

Lemma order_by_sorted (l : list order) :
  StronglySorted newer_or_same (order_by_created_at_desc l).
Proof.
  induction l as [|o l IH]; simpl; [constructor|].
  apply insert_desc_sorted. exact IH.
Qed.

(** The rows of one timestamp. *)
Definition at_time (t : Z) (l : list order) : list order :=
  filter (fun o => created_at o =? t) l.

Lemma insert_desc_at_time (t : Z) (o : order) (l : list order) :
  StronglySorted newer_or_same l ->
  at_time t (insert_desc o l) = at_time t (o :: l).
Proof.
  unfold at_time. induction 1 as [|x l Hs IH Hx]; simpl; [reflexivity|].
  destruct (created_at x <=? created_at o) eqn:E; [reflexivity|].
  simpl. rewrite IH. simpl.
  destruct (created_at x =? t) eqn:Ex, (created_at o =? t) eqn:Eo;
    try reflexivity. lia.
Qed.

(** The sort is stable: the rows of one timestamp keep the order of the
    table, which is the order of their rowids. *)
Lemma order_by_stable (t : Z) (l : list order) :
  at_time t (order_by_created_at_desc l) = at_time t l.
Proof.
  induction l as [|o l IH]; simpl; [reflexivity|].
  rewrite (insert_desc_at_time t o _ (order_by_sorted l)).
  unfold at_time in *. simpl. rewrite IH. reflexivity.
Qed.

(** [a] was created strictly before [b]. *)
Definition older (a b : order) : Prop := created_at a < created_at b.

Lemma insert_desc_oldest (o : order) (l : list order) :
  Forall (fun x => created_at o < created_at x) l -> insert_desc o l = l ++ [o].
Proof.
  induction 1 as [|x l Hx _ IH]; simpl; [reflexivity|].
  replace (created_at x <=? created_at o) with false by lia.
  rewrite IH. reflexivity.
Qed.

(** When the timestamps grow strictly with the rowids, the listing is the
    table reversed. *)
Lemma order_by_strictly_increasing (l : list order) :
  StronglySorted older l -> order_by_created_at_desc l = rev l.
Proof.
  induction 1 as [|o l Hs IH Ho]; simpl; [reflexivity|].
  rewrite IH. apply insert_desc_oldest. apply Forall_rev. exact Ho.
Qed.

(** When all the rows have one timestamp, the listing is the table in
    rowid order. *)
Lemma order_by_same_time (t : Z) (l : list order) :
  Forall (fun x => created_at x = t) l -> order_by_created_at_desc l = l.
Proof.
  induction 1 as [|o l Ho Hl IH]; simpl; [reflexivity|].
  rewrite IH. destruct Hl as [|x l Hx Hl]; simpl; [reflexivity|].
  replace (created_at x <=? created_at o) with true by lia. reflexivity.
Qed.

Section Listing.
Context {U : UnicodeData}.

(** C2, as the code has it.  With a database that opens and reads,
    [get_orders] answers 200 with the rows of the table sorted by
    [created_at], newest first; rows of equal timestamp keep the order of
    the table (rowid ascending); so the listing is the table reversed
    when the timestamps grow strictly with the rowids. *)
Theorem get_orders_newest_first (w : io) (db : database) :
  connect_fails w = false -> execute_fails w = false ->
  exists rows,
    dispatch (get_orders w) db
    = ({| body := JRows rows; status := 200 |}, closed_frame db)
    /\ Permutation rows (orders db)
    /\ StronglySorted newer_or_same rows
    /\ (forall t, at_time t rows = at_time t (orders db))
    /\ (StronglySorted older (orders db) -> rows = rev (orders db)).
Proof.
  intros Hc He. exists (order_by_created_at_desc (orders db)). split.
  - unfold dispatch, get_orders, try_finally, try_except, mbind, connect,
      execute_select, conn_close, ret.
    cbn [start file conn opened closed]. rewrite Hc, He. reflexivity.
  - split; [apply order_by_perm|]. split; [apply order_by_sorted|].
    split; [intros t; apply order_by_stable|apply order_by_strictly_increasing].
Qed.

End Listing.

(** The table after a POST. *)
Definition after_create (w : io) (data : pyval) (db : database) : database :=
  file (snd (dispatch (create_order w (Ok data)) db)).

(** An environment without failures, [k] seconds after that of [calm]. *)
Definition at_second (k : Z) : io :=
  {| connect_fails := false; execute_fails := false; commit_fails := false;
     now := 1700000000 + k |}.

(** Three orders created within one second of the clock, and three
    orders created one second apart. *)
Definition three_in_one_second : database :=
  after_create calm (VDict bob_widget)
    (after_create calm (VDict bob_widget)
       (after_create calm (VDict bob_widget) empty_database)).

Definition three_in_turn : database :=
  after_create (at_second 2) (VDict bob_widget)
    (after_create (at_second 1) (VDict bob_widget)
       (after_create (at_second 0) (VDict bob_widget) empty_database)).

Example three_tables :
  map (fun o => (id o, created_at o)) (orders three_in_one_second)
  = [(1, 1700000000); (2, 1700000000); (3, 1700000000)]
  /\ map (fun o => (id o, created_at o)) (orders three_in_turn)
     = [(1, 1700000000); (2, 1700000001); (3, 1700000002)].
Proof. split; vm_compute; reflexivity. Qed.

Lemma get_orders_newest_first_witness :
  (exists rows,
      dispatch (get_orders calm) three_in_turn
      = ({| body := JRows rows; status := 200 |}, closed_frame three_in_turn)
      /\ Permutation rows (orders three_in_turn)
      /\ StronglySorted newer_or_same rows
      /\ (forall t, at_time t rows = at_time t (orders three_in_turn))
      /\ (StronglySorted older (orders three_in_turn)
          -> rows = rev (orders three_in_turn)))
  /\ (exists rows,
        dispatch (get_orders calm) three_in_one_second
        = ({| body := JRows rows; status := 200 |},
           closed_frame three_in_one_second)
        /\ Permutation rows (orders three_in_one_second)
        /\ StronglySorted newer_or_same rows
        /\ (forall t, at_time t rows = at_time t (orders three_in_one_second))
        /\ (StronglySorted older (orders three_in_one_second)
            -> rows = rev (orders three_in_one_second))).
Proof.
  split.
  - apply (get_orders_newest_first calm three_in_turn); reflexivity.
  - apply (get_orders_newest_first calm three_in_one_second); reflexivity.
Defined.

(** The two listings: three orders created one second apart are listed
    newest first, that is in reverse creation order; three orders of one
    second are listed in creation order. *)
Example three_listings :
  (exists rows,
      fst (dispatch (get_orders calm) three_in_turn)
      = {| body := JRows rows; status := 200 |}
      /\ map id rows = [3; 2; 1] /\ rows = rev (orders three_in_turn)
      /\ StronglySorted older (orders three_in_turn))
  /\ (exists rows,
        fst (dispatch (get_orders calm) three_in_one_second)
        = {| body := JRows rows; status := 200 |}
        /\ map id rows = [1; 2; 3]
        /\ at_time 1700000000 rows = orders three_in_one_second).
Proof.
  split; eexists; (split; [vm_compute; reflexivity|]).
  - split; [reflexivity|]. split; [reflexivity|].
    vm_compute. repeat constructor.
  - split; reflexivity.
Qed.

(** The ids 1, 2 and 3 are in use in [three_in_turn]; the Arabic-Indic
    two is a digit for [isdigit] and finds none of them, where the ASCII
    two finds its row. *)
Lemma get_order_unicode_digit_not_found_witness :
  connect_fails calm = false /\ execute_fails calm = false
  /\ (isdigit [178] = true /\ forallb is_ascii_digit [178] = false)
  /\ (isdigit [1637] = true /\ forallb is_ascii_digit [1637] = false)
  /\ fst (dispatch (get_order calm [178]) three_in_turn)
     = error_response "Order not found" 404
  /\ fst (dispatch (get_order calm [1637]) three_in_turn)
     = error_response "Order not found" 404
  /\ forall order_id,
       isdigit order_id = true -> forallb is_ascii_digit order_id = false ->
       fst (dispatch (get_order calm order_id) three_in_turn)
       = error_response "Order not found" 404
       /\ status (fst (dispatch (get_order calm order_id) three_in_turn)) <> 400.
Proof.
  split; [reflexivity|]. split; [reflexivity|].
  apply (get_order_unicode_digit_not_found calm three_in_turn); reflexivity.
Defined.

Example arabic_indic_two_finds_no_row :
  isdigit [1634] = true
  /\ fst (dispatch (get_order calm [1634]) three_in_turn)
     = error_response "Order not found" 404
  /\ status (fst (dispatch (get_order calm (lit "2")) three_in_turn)) = 200.
Proof. repeat split; vm_compute; reflexivity. Qed.

(** C2, counterexample.  Three orders created one after the other within
    one second of the clock are listed in the order of their creation,
    not reversed. *)
Lemma three_creates_in_one_second_listed_in_creation_order :
  let db := after_create calm (VDict bob_widget)
              (after_create calm (VDict bob_widget)
                 (after_create calm (VDict bob_widget) empty_database)) in
  map id (orders db) = [1; 2; 3]
  /\ exists rows,
       fst (dispatch (get_orders calm) db) = {| body := JRows rows; status := 200 |}
       /\ map id rows = [1; 2; 3]
       /\ map id rows <> [3; 2; 1].
Proof.
  split; [vm_compute; reflexivity|].
  eexists. split; [vm_compute; reflexivity|].
  split; [reflexivity|discriminate].
Qed.

(** * Further properties of the code *)

(** ** What the validator accepts *)

Section Soundness.
Context {U : UnicodeData}.

(** The keys of a body that are missing, as the comprehension of
    [validate_order_data] lists them. *)
Definition missing_fields (d : list (pystr * pyval)) : list field :=
  filter (fun f => match dict_get d (lit (field_name f)) with
                   | None => true | Some _ => false end) required_fields.

Lemma missing_or_present (d : list (pystr * pyval)) :
  (exists f l, missing_fields d = f :: l)
  \/ (exists vc vi vq vp,
        lookup d customer_name = Some vc /\ lookup d item_name = Some vi
        /\ lookup d quantity = Some vq /\ lookup d total_price = Some vp).
Proof.
  unfold missing_fields, required_fields, lookup. cbn [filter].
  destruct (dict_get d (lit (field_name customer_name))) as [vc|]; [|eauto].
  destruct (dict_get d (lit (field_name item_name))) as [vi|]; [|eauto].
  destruct (dict_get d (lit (field_name quantity))) as [vq|]; [|eauto].
  destruct (dict_get d (lit (field_name total_price))) as [vp|]; [|eauto].
  right. eauto 10.
Qed.

Lemma validate_order_data_missing (d : list (pystr * pyval)) (f : field)
    (l : list field) :
  missing_fields d = f :: l ->
  validate_order_data (VDict d)
  = Ok (None, [("Missing required fields: "
                  ++ String.concat ", " (map field_name (f :: l)))%string]).
Proof.
  unfold missing_fields. intros H. unfold validate_order_data. rewrite H.
  reflexivity.
Qed.

(** A record comes without errors and errors come without a record. *)
Lemma validate_order_data_shape (data : pyval)
    (r : option (list (field * pyval))) (errors : list string) :
  validate_order_data data = Ok (r, errors) ->
  (errors = [] /\ exists vd, r = Some vd) \/ (errors <> [] /\ r = None).
Proof.
  destruct data as [| | | | | |d];
    try (intros [= <- <-]; right; split; [discriminate|reflexivity]).
  destruct (missing_or_present d) as [(f & l & Hm)|(vc & vi & vq & vp & Hc & Hi & Hq & Hp)].
  - rewrite (validate_order_data_missing d f l Hm).
    intros [= <- <-]. right. split; [discriminate|reflexivity].
  - rewrite (validate_order_data_present d vc vi vq vp Hc Hi Hq Hp).
    unfold bind.
    destruct (sanitize_string vc customer_name) as [rc|]; [|discriminate].
    destruct (sanitize_string vi item_name) as [ri|]; [|discriminate].
    destruct (validate_number vq quantity) as [rq|]; [|discriminate].
    destruct (validate_number vp total_price) as [rp|]; [|discriminate].
    destruct (snd rc ++ snd ri ++ snd rq ++ snd rp) as [|e es];
      intros [= <- <-]; [left; eauto|right; split; [discriminate|reflexivity]].
Qed.

End Soundness.

Section Accepted.
Context {U : UnicodeData}.

(** What an accepted record is made of. *)
Lemma validate_order_data_accepted (data : pyval) (vd : list (field * pyval)) :
  validate_order_data data = Ok (Some vd, []) ->
  exists d raw_customer raw_item vq vp n y,
    data = VDict d
    /\ lookup d customer_name = Some (VStr raw_customer)
    /\ lookup d item_name = Some (VStr raw_item)
    /\ lookup d quantity = Some vq /\ lookup d total_price = Some vp
    /\ vd = [(customer_name, VStr (strip raw_customer));
             (item_name, VStr (strip raw_item));
             (quantity, VInt n); (total_price, VFloat (round2 y))]
    /\ (strip raw_customer <> [] /\ len (strip raw_customer) <= 100
        /\ re_match customer_name_class (strip raw_customer) = true)
    /\ (strip raw_item <> [] /\ len (strip raw_item) <= 200
        /\ re_match item_name_class (strip raw_item) = true)
    /\ (py_int vq = Ok n /\ 1 <= n <= 1000)
    /\ (py_float vp = Ok y /\ float_lt (round2 y) float_0_01 = false
        /\ float_gt (round2 y) float_1000000 = false).
Proof.
  destruct data as [| | | | | |d]; try discriminate.
  destruct (missing_or_present d)
    as [(f & l & Hm)|(vc & vi & vq & vp & Hc & Hi & Hq & Hp)].
  { rewrite (validate_order_data_missing d f l Hm). discriminate. }
  rewrite (validate_order_data_present d vc vi vq vp Hc Hi Hq Hp). unfold bind.
  destruct (sanitize_string vc customer_name) as [[rc ec]|] eqn:Sc; [|discriminate].
  destruct (sanitize_string vi item_name) as [[ri ei]|] eqn:Si; [|discriminate].
  destruct (validate_number vq quantity) as [[rq eq]|] eqn:Nq; [|discriminate].
  destruct (validate_number vp total_price) as [[rp ep]|] eqn:Np; [|discriminate].
  cbn [fst snd].
  destruct (ec ++ ei ++ eq ++ ep) as [|e es] eqn:E; [|discriminate].
  apply app_eq_nil in E. destruct E as [-> E].
  apply app_eq_nil in E. destruct E as [-> E].
  apply app_eq_nil in E. destruct E as [-> ->].
  destruct (sanitize_string_no_error _ _ _ Sc) as [c ->].
  destruct (sanitize_string_no_error _ _ _ Si) as [i ->].
  destruct (validate_number_no_error _ _ _ Nq) as [q ->].
  destruct (validate_number_no_error _ _ _ Np) as [p ->].
  destruct (sanitize_string_accepted _ _ _ Sc)
    as (_ & rawc & -> & -> & C1 & C2 & C3).
  destruct (sanitize_string_accepted _ _ _ Si)
    as (_ & rawi & -> & -> & I1 & I2 & I3).
  destruct (validate_quantity_accepted _ _ Nq) as (n & -> & Q1 & Q2).
  destruct (validate_total_price_accepted _ _ Np) as (y & P1 & -> & P2 & P3).
  intros [= <-]. exists d, rawc, rawi, vq, vp, n, y.
  repeat split; auto; lia.
Qed.

End Accepted.

Section AcceptedBounds.
Context {U : UnicodeData}.

Lemma valid_name_of_stripped (class : Z -> bool) (max_length : Z) (raw : pystr) :
  strip raw <> [] -> len (strip raw) <= max_length ->
  re_match class (strip raw) = true ->
  valid_name class max_length (strip raw) = true.
Proof.
  intros Hne Hlen Hre. unfold valid_name. rewrite strip_idem, Hre.
  assert (E : pystr_eqb (strip raw) (strip raw) = true)
    by (apply pystr_eqb_eq; reflexivity).
  rewrite E. assert (1 <= len (strip raw)).
  { unfold len. destruct (strip raw); [congruence|]. simpl List.length. lia. }
  replace (1 <=? len (strip raw)) with true by lia.
  replace (len (strip raw) <=? max_length) with true by lia. reflexivity.
Qed.

(** X1.  The validator is sound: a record that it returns has no error
    beside it and holds exactly the four fields, as a trimmed name of 1
    to 100 characters of the customer class, a trimmed name of 1 to 200
    characters of the item class, an integer from 1 to 1000, and a float
    that is NaN or lies from 0.01 to 1000000.00. *)
Theorem validated_record_within_bounds
    (data : pyval) (vd : list (field * pyval)) (errors : list string) :
  validate_order_data data = Ok (Some vd, errors) ->
  errors = []
  /\ exists c i q p,
       vd = [(customer_name, VStr c); (item_name, VStr i);
             (quantity, VInt q); (total_price, VFloat p)]
       /\ valid_name customer_name_class 100 c = true
       /\ valid_name item_name_class 200 i = true
       /\ 1 <= q <= 1000
       /\ (is_nan p = true
           \/ (SFleb float_0_01 p = true /\ SFleb p float_1000000 = true)).
Proof.
  intros H. destruct (validate_order_data_shape _ _ _ H) as [[-> _]|[_ E]];
    [|discriminate]. split; [reflexivity|].
  destruct (validate_order_data_accepted _ _ H)
    as (d & rc & ri & vq & vp & n & y & _ & _ & _ & _ & _ & -> &
        (C1 & C2 & C3) & (I1 & I2 & I3) & (_ & Q) & (_ & P1 & P2)).
  exists (strip rc), (strip ri), n, (round2 y). split; [reflexivity|].
  split; [apply valid_name_of_stripped; assumption|].
  split; [apply valid_name_of_stripped; assumption|].
  split; [exact Q|].
  destruct (is_nan (round2 y)) eqn:N; [left; reflexivity|right].
  split; apply SFltb_false_SFleb; try assumption; reflexivity.
Qed.

End AcceptedBounds.

Lemma validated_record_within_bounds_witness :
  @nil string = []
  /\ exists c i q p,
       [(customer_name, VStr (lit "Bob")); (item_name, VStr (lit "Widget"));
        (quantity, VInt 1); (total_price, VFloat (float_of_ratio false 999 100))]
       = [(customer_name, VStr c); (item_name, VStr i);
          (quantity, VInt q); (total_price, VFloat p)]
       /\ valid_name customer_name_class 100 c = true
       /\ valid_name item_name_class 200 i = true
       /\ 1 <= q <= 1000
       /\ (is_nan p = true
           \/ (SFleb float_0_01 p = true /\ SFleb p float_1000000 = true)).
Proof.
  apply (validated_record_within_bounds (VDict bob_widget)).
  vm_compute. reflexivity.
Defined.

(** ** What a POST does to the table *)

Section Outcome.
Context {U : UnicodeData}.

Lemma create_order_validate_raises (w : io) (data : pyval) (e : exn) (db : database) :
  truthy data = true ->
  validate_order_data data = Raise e ->
  create_order w (Ok data) (start db)
  = (Ok (if is_sqlite3_Error e then database_error
         else error_response "Failed to create the order" 500),
     {| file := db; conn := BoundNone; opened := 0; closed := 0 |}).
Proof.
  intros H Hv. unfold create_order.
  unfold try_finally, try_except, mbind, assign_None, lift, close_if_conn, ret.
  cbn [file conn opened closed start]. rewrite H, Hv. cbn [negb].
  destruct (is_sqlite3_Error e); reflexivity.
Qed.

(** The two outcomes of [create_order]: the row of an accepted record is
    inserted and the answer is 201 with its id, or the answer is 400 or
    500 and the file is as it was. *)
Lemma create_order_outcome (w : io) (json : result pyval) (db : database) :
  (exists data c i q p db' k,
      json = Ok data
      /\ validate_order_data data
         = Ok (Some [(customer_name, VStr c); (item_name, VStr i);
                     (quantity, VInt q); (total_price, VFloat p)], [])
      /\ INSERT db (now w) c i q p = Ok (db', k)
      /\ create_order w json (start db) = (Ok (created k), closed_frame db'))
  \/ (exists r s,
        create_order w json (start db) = (Ok r, s)
        /\ file s = db /\ (status r = 400 \/ status r = 500)).
Proof.
  destruct json as [data|e].
  2:{ right. rewrite create_order_no_json.
      destruct (is_sqlite3_Error e); eauto 10. }
  destruct (truthy data) eqn:Ht.
  2:{ right. rewrite (create_order_falsy w data db Ht). eauto 10. }
  destruct (validate_order_data data) as [[r [|er es]]|e] eqn:Hv.
  - destruct (validate_order_data_shape _ _ _ Hv) as [[_ [vd ->]]|[E _]];
      [|congruence].
    destruct (validate_order_data_accepted _ _ Hv)
      as (d & rc & ri & vq & vp & n & y & _ & _ & _ & _ & _ & -> & _).
    pose proof (create_order_validated w data _ _ _ _ db Ht Hv) as Hc.
    destruct (connect_fails w); [right; eauto 10|].
    destruct (execute_fails w); [right; eauto 10|].
    destruct (INSERT db (now w) (strip rc) (strip ri) n (round2 y))
      as [[db' k]|e] eqn:EI.
    + destruct (commit_fails w); [right; eauto 10|].
      left. exists data, (strip rc), (strip ri), n, (round2 y), db', k. auto.
    + right. destruct (is_sqlite3_Error e); eauto 10.
  - right. rewrite (create_order_rejected w data db r er es Ht Hv). eauto 10.
  - right. rewrite (create_order_validate_raises w data e db Ht Hv).
    destruct (is_sqlite3_Error e); eauto 10.
Qed.

(** X2.  A POST appends at most one row and changes nothing else.  When
    the answer is 201, the table is the old one with one row appended, its
    id is one above the AUTOINCREMENT counter (so above every id in use),
    the answer carries that id and the row has the time of the request;
    with every other answer the file is as it was.  The bound of the ids
    by the counter is kept. *)
Theorem create_order_appends_at_most_one_row
    (w : io) (json : result pyval) (db : database) :
  ids_bounded db ->
  let r := fst (dispatch (create_order w json) db) in
  let db' := file (snd (dispatch (create_order w json) db)) in
  ids_bounded db'
  /\ ((exists o, r = created (id o)
                 /\ orders db' = orders db ++ [o]
                 /\ id o = sqlite_sequence db + 1
                 /\ sqlite_sequence db' = id o
                 /\ created_at o = now w
                 /\ Forall (fun x => id x < id o) (orders db))
      \/ (db' = db /\ (status r = 400 \/ status r = 500))).
Proof.
  intros Hb. unfold dispatch.
  destruct (create_order_outcome w json db)
    as [(data & c & i & q & p & db' & k & _ & _ & EI & ->)|(r & s & -> & Hs & Hr)].
  - cbn [fst snd file closed_frame]. split.
    + exact (INSERT_keeps_ids_bounded _ _ _ _ _ _ _ _ Hb EI).
    + left. destruct (INSERT_ok _ _ _ _ _ _ _ _ EI) as (Ek & _ & _ & ->).
      eexists. cbn [orders sqlite_sequence].
      split; [|split; [reflexivity|]]; cbn [id created_at]; [reflexivity|].
      repeat split; try assumption.
      destruct Hb as [_ HF]. eapply Forall_impl; [|exact HF].
      simpl. intros x Hx. lia.
  - cbn [fst snd]. rewrite Hs. split; [exact Hb|right; auto].
Qed.

(** X3.  The store never holds a row that the validator did not pass:
    when the answer is 201, the row appended has a trimmed customer name
    of 1 to 100 characters of its class, a trimmed item name of 1 to 200
    characters of its class, a quantity from 1 to 1000 and a price that
    is a number from 0.01 to 1000000.00. *)
Theorem created_row_satisfies_constraints
    (w : io) (json : result pyval) (db : database) (order_id : Z) (s : frame) :
  dispatch (create_order w json) db = (created order_id, s) ->
  exists o,
    orders (file s) = orders db ++ [o]
    /\ id o = order_id
    /\ valid_name customer_name_class 100 (order_customer_name o) = true
    /\ valid_name item_name_class 200 (order_item_name o) = true
    /\ 1 <= order_quantity o <= 1000
    /\ is_nan (order_total_price o) = false
    /\ SFleb float_0_01 (order_total_price o) = true
    /\ SFleb (order_total_price o) float_1000000 = true.
Proof.
  unfold dispatch.
  destruct (create_order_outcome w json db)
    as [(data & c & i & q & p & db' & k & _ & Hv & EI & ->)|(r & s' & -> & Hs & Hr)].
  - intros H. assert (Hk : k = order_id) by (unfold created in H; congruence).
    assert (Hs : closed_frame db' = s) by congruence.
    clear H. subst s. cbn [file closed_frame].
    destruct (INSERT_ok _ _ _ _ _ _ _ _ EI) as (_ & _ & Hn & ->).
    subst k.
    destruct (validate_order_data_accepted _ _ Hv)
      as (d & rc & ri & vq & vp & n & y & _ & _ & _ & _ & _ & E &
          (C1 & C2 & C3) & (I1 & I2 & I3) & (_ & Q) & (_ & P1 & P2)).
    injection E as -> -> -> ->.
    eexists. cbn [orders]. split; [reflexivity|].
    cbn [id order_customer_name order_item_name order_quantity order_total_price].
    split; [reflexivity|].
    split; [apply valid_name_of_stripped; assumption|].
    split; [apply valid_name_of_stripped; assumption|].
    split; [exact Q|]. split; [exact Hn|].
    split; apply SFltb_false_SFleb; try assumption; reflexivity.
  - intros [= -> <-]. destruct Hr as [Hr|Hr]; discriminate Hr.
Qed.

End Outcome.

Lemma create_order_appends_at_most_one_row_witness :
  let r := fst (dispatch (create_order calm (Ok (VDict bob_widget))) empty_database) in
  let db' :=
    file (snd (dispatch (create_order calm (Ok (VDict bob_widget))) empty_database)) in
  ids_bounded db'
  /\ ((exists o, r = created (id o)
                 /\ orders db' = orders empty_database ++ [o]
                 /\ id o = sqlite_sequence empty_database + 1
                 /\ sqlite_sequence db' = id o
                 /\ created_at o = now calm
                 /\ Forall (fun x => id x < id o) (orders empty_database))
      \/ (db' = empty_database /\ (status r = 400 \/ status r = 500))).
Proof.
  apply (create_order_appends_at_most_one_row calm (Ok (VDict bob_widget))
           empty_database).
  split; [simpl; lia|constructor].
Defined.

Lemma created_row_satisfies_constraints_witness :
  exists o,
    orders (file (snd (dispatch (create_order calm (Ok (VDict bob_widget)))
                         empty_database)))
    = orders empty_database ++ [o]
    /\ id o = 1
    /\ valid_name customer_name_class 100 (order_customer_name o) = true
    /\ valid_name item_name_class 200 (order_item_name o) = true
    /\ 1 <= order_quantity o <= 1000
    /\ is_nan (order_total_price o) = false
    /\ SFleb float_0_01 (order_total_price o) = true
    /\ SFleb (order_total_price o) float_1000000 = true.
Proof.
  apply (created_row_satisfies_constraints calm (Ok (VDict bob_widget))
           empty_database 1).
  vm_compute. reflexivity.
Defined.

(** ** Trimming *)

Definition all_space (s : pystr) : bool := forallb Py_UNICODE_ISSPACE s.

Lemma lstrip_split (s : pystr) :
  exists a, s = a ++ lstrip s /\ all_space a = true.
Proof.
  induction s as [|x s (a & E & Ha)]; simpl.
  - exists []. split; reflexivity.
  - destruct (Py_UNICODE_ISSPACE x) eqn:Hx.
    + exists (x :: a). simpl. rewrite Hx, Ha. split; [congruence|reflexivity].
    + exists []. split; reflexivity.
Qed.

Lemma all_space_rev (s : pystr) : all_space (rev s) = all_space s.
Proof.
  unfold all_space. induction s as [|x s IH]; simpl; [reflexivity|].
  rewrite forallb_app, IH. simpl. rewrite andb_true_r. apply andb_comm.
Qed.

Lemma rstrip_split (s : pystr) :
  exists b, s = rstrip s ++ b /\ all_space b = true.
Proof.
  unfold rstrip. destruct (lstrip_split (rev s)) as (a & E & Ha).
  exists (rev a). rewrite all_space_rev. split; [|exact Ha].
  rewrite <- rev_app_distr, <- E, rev_involutive. reflexivity.
Qed.

Lemma lstrip_nil (s : pystr) : lstrip s = [] <-> all_space s = true.
Proof.
  unfold all_space. induction s as [|x s IH]; simpl; [tauto|].
  destruct (Py_UNICODE_ISSPACE x); simpl; [exact IH|].
  split; discriminate.
Qed.

Lemma rstrip_nil (s : pystr) : rstrip s = [] <-> all_space s = true.
Proof.
  unfold rstrip. rewrite <- all_space_rev, <- lstrip_nil.
  split; intros H.
  - apply (f_equal (@rev Z)) in H. rewrite rev_involutive in H. exact H.
  - rewrite H. reflexivity.
Qed.

Lemma strip_nil (s : pystr) : strip s = [] <-> all_space s = true.
Proof.
  unfold strip. rewrite rstrip_nil. split; intros H.
  - destruct (lstrip_head s) as [E|(c & r & E & Hc)].
    + apply lstrip_nil. exact E.
    + rewrite E in H. unfold all_space in H. simpl in H. rewrite Hc in H.
      discriminate.
  - apply lstrip_nil in H. rewrite H. reflexivity.
Qed.

Lemma rstrip_last (s : pystr) :
  rstrip s = [] \/ exists r c, rstrip s = r ++ [c] /\ Py_UNICODE_ISSPACE c = false.
Proof.
  unfold rstrip. destruct (lstrip_head (rev s)) as [->|(c & r & -> & Hc)].
  - left. reflexivity.
  - right. exists (rev r), c. split; [reflexivity|exact Hc].
Qed.

Lemma strip_first (s : pystr) :
  strip s = [] \/ exists c r, strip s = c :: r /\ Py_UNICODE_ISSPACE c = false.
Proof.
  unfold strip. destruct (lstrip_head s) as [->|(c & r & -> & Hc)].
  - left. reflexivity.
  - right. rewrite (rstrip_cons c r Hc). eauto.
Qed.

(** X4.  A name is changed by trimming only.  Whenever [sanitize_string]
    returns a value, with or without errors, the string given is that
    value between two runs of whitespace, and the value begins and ends
    with a character that is not whitespace. *)
Theorem sanitize_string_only_trims
    (f : field) (raw s : pystr) (errors : list string) :
  sanitize_string (VStr raw) f = Ok (Some s, errors) ->
  (exists a b, raw = a ++ s ++ b /\ all_space a = true /\ all_space b = true)
  /\ (exists c r, s = c :: r /\ Py_UNICODE_ISSPACE c = false)
  /\ (exists r c, s = r ++ [c] /\ Py_UNICODE_ISSPACE c = false).
Proof.
  intros H.
  assert (E : s = strip raw /\ s <> []).
  { unfold sanitize_string in H.
    destruct (strip raw) as [|c r] eqn:E; [discriminate|].
    destruct (VALIDATION_RULES f); try discriminate.
    injection H as <- _. split; [reflexivity|discriminate]. }
  destruct E as [-> Hne]. split; [|split].
  - destruct (lstrip_split raw) as (a & Ea & Ha).
    destruct (rstrip_split (lstrip raw)) as (b & Eb & Hb).
    exists a, b. unfold strip. rewrite <- Eb, <- Ea. auto.
  - destruct (strip_first raw) as [E|E]; [contradiction|exact E].
  - unfold strip in *. destruct (rstrip_last (lstrip raw)) as [E|E];
      [contradiction|exact E].
Qed.

Lemma sanitize_string_only_trims_witness :
  (exists a b, lit "  Bob " = a ++ lit "Bob" ++ b
               /\ all_space a = true /\ all_space b = true)
  /\ (exists c r, lit "Bob" = c :: r /\ Py_UNICODE_ISSPACE c = false)
  /\ (exists r c, lit "Bob" = r ++ [c] /\ Py_UNICODE_ISSPACE c = false).
Proof.
  apply (sanitize_string_only_trims customer_name (lit "  Bob ") (lit "Bob") []).
  vm_compute. reflexivity.
Defined.

(** X5.  A name field holds a string of whitespace only (the empty
    string too) exactly when [sanitize_string] answers with no value and
    the one message that the field cannot be empty. *)
Theorem sanitize_string_blank (f : field) (raw : pystr) :
  is_string_field f = true ->
  (all_space raw = true
   <-> sanitize_string (VStr raw) f
       = Ok (None, [(field_name f ++ " cannot be empty")%string])).
Proof.
  intros Hf. rewrite <- strip_nil. unfold sanitize_string.
  destruct f; try discriminate; cbn [VALIDATION_RULES];
    (destruct (strip raw) as [|c r]; split; intros H;
       [reflexivity|reflexivity|discriminate|discriminate]).
Qed.

Lemma sanitize_string_blank_witness :
  all_space [32; 9; 160; 12288] = true
  <-> sanitize_string (VStr [32; 9; 160; 12288]) item_name
      = Ok (None, [(field_name item_name ++ " cannot be empty")%string]).
Proof.
  apply (sanitize_string_blank item_name [32; 9; 160; 12288]). reflexivity.
Defined.

(** ** All the errors of a body *)

Section Collected.
Context {U : UnicodeData}.

(** The check of a name raises nothing. *)
Lemma sanitize_string_returns (v : pyval) (f : field) :
  is_string_field f = true ->
  exists r errors, sanitize_string v f = Ok (r, errors).
Proof.
  intros Hf. unfold sanitize_string.
  destruct f; try discriminate; cbn [VALIDATION_RULES];
    (destruct v; eauto; destruct (strip s); eauto).
Qed.

(** X6.  No field hides the errors of another.  On a body with the four
    keys whose two numbers convert without an exception that leaves
    [validate_number], the errors returned are those of customer_name,
    item_name, quantity and total_price, each complete, in this order;
    and a record is returned only when there is none. *)
Theorem validate_order_data_collects_all_errors
    (d : list (pystr * pyval)) (vc vi vq vp : pyval)
    (rq rp : option pyval) (eq ep : list string) :
  lookup d customer_name = Some vc -> lookup d item_name = Some vi ->
  lookup d quantity = Some vq -> lookup d total_price = Some vp ->
  validate_number vq quantity = Ok (rq, eq) ->
  validate_number vp total_price = Ok (rp, ep) ->
  exists rc ec ri ei r,
    sanitize_string vc customer_name = Ok (rc, ec)
    /\ sanitize_string vi item_name = Ok (ri, ei)
    /\ validate_order_data (VDict d) = Ok (r, ec ++ ei ++ eq ++ ep)
    /\ (r = None <-> ec ++ ei ++ eq ++ ep <> []).
Proof.
  intros Hc Hi Hq Hp Hvq Hvp.
  destruct (sanitize_string_returns vc customer_name eq_refl) as (rc & ec & Ec).
  destruct (sanitize_string_returns vi item_name eq_refl) as (ri & ei & Ei).
  rewrite (validate_order_data_present d vc vi vq vp Hc Hi Hq Hp).
  rewrite Ec, Ei, Hvq, Hvp. cbn [bind fst snd].
  exists rc, ec, ri, ei.
  destruct (ec ++ ei ++ eq ++ ep) as [|e es].
  - eexists. split; [reflexivity|split; [reflexivity|split; [reflexivity|]]].
    split; [discriminate|congruence].
  - eexists. split; [reflexivity|split; [reflexivity|split; [reflexivity|]]].
    split; [discriminate|reflexivity].
Qed.

End Collected.

(** ** Valid bodies, and the independence of the four checks *)

Section ValidInput.
Context {U : UnicodeData}.






End ValidInput.




(** A body with a name that is too long and has a character outside its
    class, an item that is not a string, and a quantity and a price of
    zero. *)
Definition four_mistakes : list (pystr * pyval) :=
  [(lit "customer_name", VStr (repeat 33 101));
   (lit "item_name", VInt 7);
   (lit "quantity", VInt 0);
   (lit "total_price", VInt 0)].

Lemma validate_order_data_collects_all_errors_witness :
  exists rc ec ri ei r,
    sanitize_string (VStr (repeat 33 101)) customer_name = Ok (rc, ec)
    /\ sanitize_string (VInt 7) item_name = Ok (ri, ei)
    /\ validate_order_data (VDict four_mistakes)
       = Ok (r, ec ++ ei ++ ["Quantity must be between 1 and 1000"%string]
                ++ ["Total price must be between 0.01 and 1,000,000.00"%string])
    /\ (r = None
        <-> ec ++ ei ++ ["Quantity must be between 1 and 1000"%string]
              ++ ["Total price must be between 0.01 and 1,000,000.00"%string] <> []).
Proof.
  apply (validate_order_data_collects_all_errors four_mistakes
           (VStr (repeat 33 101)) (VInt 7) (VInt 0) (VInt 0) None None);
    vm_compute; reflexivity.
Defined.

(** ** Bodies of the wrong shape *)

Section Shape.
Context {U : UnicodeData}.

Definition is_dict (v : pyval) : bool :=
  match v with VDict _ => true | _ => false end.

Definition errors_response (errors : list string) : response :=
  {| body := JObject [("errors"%string, JStrings errors)]; status := 400 |}.

(** The frame of a request that opened no connection. *)
Definition untouched (db : database) : frame :=
  {| file := db; conn := BoundNone; opened := 0; closed := 0 |}.

(** X7.  A body that is JSON but not an object, or an object that lacks
    some of the four keys, is answered 400 with exactly one message under
    [errors], whatever the values of the keys it has: the format message,
    or the message that lists the missing keys in the order
    customer_name, item_name, quantity, total_price.  No connection is
    opened and the file is as it was. *)
Theorem create_order_wrong_shape (w : io) (data : pyval) (db : database) :
  truthy data = true ->
  (is_dict data = false ->
   dispatch (create_order w (Ok data)) db
   = (errors_response ["Invalid request format. Expected JSON object"%string],
      untouched db))
  /\ (forall d f l, data = VDict d -> missing_fields d = f :: l ->
        dispatch (create_order w (Ok data)) db
        = (errors_response
             [("Missing required fields: "
                 ++ String.concat ", " (map field_name (f :: l)))%string],
           untouched db)
        /\ incl (f :: l) required_fields
        /\ forall g, In g required_fields ->
             (In g (f :: l) <-> dict_get d (lit (field_name g)) = None)).
Proof.
  intros Ht. split.
  - intros Hd. unfold dispatch.
    rewrite (create_order_rejected w data db None
               "Invalid request format. Expected JSON object" [] Ht);
      [reflexivity|].
    destruct data; try reflexivity. discriminate.
  - intros d f l -> Hm. split; [|split].
    + unfold dispatch.
      rewrite (create_order_rejected w (VDict d) db None _ [] Ht
                 (validate_order_data_missing d f l Hm)).
      reflexivity.
    + rewrite <- Hm. unfold missing_fields. intros g Hg.
      apply filter_In in Hg. tauto.
    + intros g Hg. rewrite <- Hm. unfold missing_fields. rewrite filter_In.
      destruct (dict_get d (lit (field_name g))); split;
        try tauto; try discriminate; intros [_ H]; discriminate.
Qed.

End Shape.

Lemma create_order_wrong_shape_witness :
  (is_dict (VDict [(lit "item_name", VInt 7)]) = false ->
   dispatch (create_order calm (Ok (VDict [(lit "item_name", VInt 7)])))
     empty_database
   = (errors_response ["Invalid request format. Expected JSON object"%string],
      untouched empty_database))
  /\ (forall d f l, VDict [(lit "item_name", VInt 7)] = VDict d ->
        missing_fields d = f :: l ->
        dispatch (create_order calm (Ok (VDict [(lit "item_name", VInt 7)])))
          empty_database
        = (errors_response
             [("Missing required fields: "
                 ++ String.concat ", " (map field_name (f :: l)))%string],
           untouched empty_database)
        /\ incl (f :: l) required_fields
        /\ forall g, In g required_fields ->
             (In g (f :: l) <-> dict_get d (lit (field_name g)) = None)).
Proof.
  apply (create_order_wrong_shape calm (VDict [(lit "item_name", VInt 7)])
           empty_database).
  reflexivity.
Defined.

(** ** Numbers that overflow *)

Section Overflow.
Context {U : UnicodeData}.

(** X8.  An [OverflowError] of a conversion is not among the exceptions
    that [validate_number] catches.  On a body with the four keys, when
    [int] of the quantity overflows (an infinite float), or the quantity
    is checked and [float] of the price overflows (an integer too large
    for a float), the validator raises instead of returning errors, and
    the POST is answered 500 with the message of the last handler, with
    no connection opened and the file as it was. *)
Theorem overflow_in_a_number_is_500
    (w : io) (d : list (pystr * pyval)) (vc vi vq vp : pyval) (db : database) :
  lookup d customer_name = Some vc -> lookup d item_name = Some vi ->
  lookup d quantity = Some vq -> lookup d total_price = Some vp ->
  py_int vq = Raise OverflowError
  \/ ((exists r, validate_number vq quantity = Ok r)
      /\ py_float vp = Raise OverflowError) ->
  validate_order_data (VDict d) = Raise OverflowError
  /\ dispatch (create_order w (Ok (VDict d))) db
     = (error_response "Failed to create the order" 500, untouched db).
Proof.
  intros Hc Hi Hq Hp Ho.
  assert (Hv : validate_order_data (VDict d) = Raise OverflowError).
  { rewrite (validate_order_data_present d vc vi vq vp Hc Hi Hq Hp).
    destruct (sanitize_string_returns vc customer_name eq_refl) as (rc & ec & ->).
    destruct (sanitize_string_returns vi item_name eq_refl) as (ri & ei & ->).
    cbn [bind]. destruct Ho as [Ho|[[r Hr] Ho]].
    - unfold validate_number. cbn [field_eqb]. rewrite Ho. reflexivity.
    - rewrite Hr. cbn [bind]. unfold validate_number. cbn [field_eqb].
      rewrite Ho. reflexivity. }
  split; [exact Hv|]. unfold dispatch.
  rewrite (create_order_validate_raises w (VDict d) OverflowError db
             (truthy_present d customer_name vc Hc) Hv).
  reflexivity.
Qed.

End Overflow.

Definition bob_infinity : list (pystr * pyval) :=
  [ (lit "customer_name", VStr (lit "Bob"));
    (lit "item_name", VStr (lit "Widget"));
    (lit "quantity", VFloat (S754_infinity false));
    (lit "total_price", VFloat (float_of_ratio false 999 100)) ].

Lemma overflow_in_a_number_is_500_witness :
  validate_order_data (VDict bob_infinity) = Raise OverflowError
  /\ dispatch (create_order calm (Ok (VDict bob_infinity))) empty_database
     = (error_response "Failed to create the order" 500, untouched empty_database).
Proof.
  apply (overflow_in_a_number_is_500 calm bob_infinity
           (VStr (lit "Bob")) (VStr (lit "Widget"))
           (VFloat (S754_infinity false))
           (VFloat (float_of_ratio false 999 100)) empty_database);
    try reflexivity.
  left. reflexivity.
Defined.

(** ** Requests and the file *)

Section Requests.
Context {U : UnicodeData}.

(** X10.  When the file opens, a GET uses one connection and closes it
    on every exit.  The list is answered 200; one order, for an id made
    of digits, 200 or 404; and a failure of the query is answered 500
    with the fixed message of the handler. *)
Theorem get_requests_close_their_connection
    (w : io) (order_id : pystr) (db : database) :
  connect_fails w = false -> isdigit order_id = true ->
  let list_all := dispatch (get_orders w) db in
  let one := dispatch (get_order w order_id) db in
  (opened (snd list_all) = 1%nat /\ closed (snd list_all) = 1%nat)
  /\ (opened (snd one) = 1%nat /\ closed (snd one) = 1%nat)
  /\ (if execute_fails w
      then fst list_all = error_response "Failed to fetch" 500
           /\ fst one = error_response "Failed to fetch details" 500
      else status (fst list_all) = 200
           /\ (status (fst one) = 200 \/ status (fst one) = 404)).
Proof.
  intros Hc Hd.
  unfold dispatch, get_orders, get_order, try_finally, try_except, mbind,
    connect, execute_select, conn_close, ret, start.
  rewrite Hc, Hd. cbn [negb file conn opened closed].
  destruct (execute_fails w); cbn [fst snd opened closed].
  - repeat split.
  - destruct (select_by_id db order_id); cbn [fst snd opened closed status];
      repeat split; auto.
Qed.

(** X11.  A POST is always answered by the handler itself: whatever the
    body is and whatever the environment does, [create_order] returns a
    response with status 201, 400 or 500, and every connection it opened
    is closed. *)
Theorem create_order_always_answers
    (w : io) (json : result pyval) (db : database) :
  exists r s, create_order w json (start db) = (Ok r, s)
    /\ closed s = opened s
    /\ (opened s <= 1)%nat
    /\ (status r = 201 \/ status r = 400 \/ status r = 500).
Proof.
  destruct (create_order_outcome w json db)
    as [(data & c & i & q & p & db' & k & _ & _ & _ & ->)|(r & s & E & Hs & Hr)].
  - do 2 eexists. split; [reflexivity|]. cbn. auto.
  - destruct (create_order_returns w json db) as (r' & s' & E' & _ & Hrel).
    rewrite E in E'. injection E' as <- <-.
    exists r, s. split; [exact E|]. split; [exact Hrel|].
    split; [|tauto].
    revert E. unfold create_order, try_finally, try_except, mbind, assign_None,
      lift, connect, close_if_conn, conn_close, ret, raise.
    cbn [file conn opened closed start].
    destruct json as [data|e].
    2:{ destruct (is_sqlite3_Error e); intros [= _ <-]; cbn; lia. }
    destruct (truthy data); cbn [negb]; [|intros [= _ <-]; cbn; lia].
    destruct (validate_order_data data) as [[x [|er es]]|e].
    + destruct x as [vd|]; [|intros [= _ <-]; cbn; lia].
      destruct (connect_fails w); [intros [= _ <-]; cbn; lia|].
      match goal with |- context [execute_insert w vd ?s0] =>
        destruct (execute_insert_frame w vd s0) as (y & s1 & -> & Hc1 & Ho & Hk)
      end.
      cbn [conn opened closed] in Hc1, Ho, Hk.
      destruct y as [k|e]; [|destruct (is_sqlite3_Error e)];
        rewrite Hc1; intros [= _ <-]; cbn; lia.
    + destruct x; intros [= _ <-]; cbn; lia.
    + destruct (is_sqlite3_Error e); intros [= _ <-]; cbn; lia.
Qed.

End Requests.

Lemma get_requests_close_their_connection_witness :
  let list_all := dispatch (get_orders calm) empty_database in
  let one := dispatch (get_order calm (lit "7")) empty_database in
  (opened (snd list_all) = 1%nat /\ closed (snd list_all) = 1%nat)
  /\ (opened (snd one) = 1%nat /\ closed (snd one) = 1%nat)
  /\ (if execute_fails calm
      then fst list_all = error_response "Failed to fetch" 500
           /\ fst one = error_response "Failed to fetch details" 500
      else status (fst list_all) = 200
           /\ (status (fst one) = 200 \/ status (fst one) = 404)).
Proof.
  apply (get_requests_close_their_connection calm (lit "7") empty_database);
    reflexivity.
Defined.

(** ** What a lookup finds *)

Section Found.
Context {U : UnicodeData}.

Lemma find_no_id (l : list order) (n : Z) :
  Forall (fun o => id o <> n) l -> find (fun o => id o =? n) l = None.
Proof.
  induction 1 as [|x l Hx _ IH]; simpl; [reflexivity|].
  replace (id x =? n) with false by lia. exact IH.
Qed.

(** X12.  A lookup answers only with the row that was asked for: when
    [get_order] answers 200, the id text is made of ASCII digits, the row
    in the answer is a row of the table, and its id is the number that
    the text writes. *)
Theorem get_order_answers_the_row_asked_for
    (w : io) (order_id : pystr) (db : database) (o : order) (s : frame) :
  dispatch (get_order w order_id) db = ({| body := JRow o; status := 200 |}, s) ->
  In o (orders db)
  /\ forallb is_ascii_digit order_id = true
  /\ id o = value_of_digits (map (fun c => c - 48) order_id).
Proof.
  unfold dispatch, get_order, try_finally, try_except, mbind,
    connect, execute_select, conn_close, ret, start.
  destruct (isdigit order_id); cbn [negb]; [|discriminate].
  destruct (connect_fails w); [discriminate|]. cbn [file conn opened closed].
  destruct (execute_fails w); [discriminate|].
  destruct (select_by_id db order_id) as [o'|] eqn:E; [|discriminate].
  cbn [fst snd]. intros H. injection H as Ho _. subst o'.
  unfold select_by_id, rowid_of_text in E.
  destruct order_id as [|c r]; [discriminate|].
  destruct (forallb is_ascii_digit (c :: r)); [|discriminate].
  destruct (_ <=? int64_max); [|discriminate].
  apply find_some in E. destruct E as [Hin Hid].
  split; [exact Hin|]. split; [reflexivity|]. lia.
Qed.

(** X13.  An id that no row can have is answered 404.  With the ids in
    use between 1 and the AUTOINCREMENT counter, and a file that opens and
    reads, an id text made of digits that writes no integer of 64 bits,
    or zero, or a number above the counter, finds no order. *)
Theorem get_order_outside_counter_is_404
    (w : io) (order_id : pystr) (db : database) :
  ids_bounded db ->
  connect_fails w = false -> execute_fails w = false ->
  isdigit order_id = true ->
  (forall n, rowid_of_text order_id = Some n -> n = 0 \/ sqlite_sequence db < n) ->
  dispatch (get_order w order_id) db
  = (error_response "Order not found" 404, closed_frame db).
Proof.
  intros [H0 HF] Hc He Hd Hn. unfold dispatch.
  rewrite (get_order_not_found w order_id db Hd Hc He); [reflexivity|].
  unfold select_by_id. destruct (rowid_of_text order_id) as [n|]; [|reflexivity].
  apply find_no_id. eapply Forall_impl; [|exact HF].
  simpl. intros x Hx. destruct (Hn n eq_refl); lia.
Qed.

End Found.

Lemma get_order_answers_the_row_asked_for_witness :
  In {| id := 1; order_customer_name := lit "Bob"; order_item_name := lit "Widget";
        order_quantity := 1; order_total_price := float_of_ratio false 999 100;
        created_at := 1700000000 |}
     (orders (file (snd (dispatch (create_order calm (Ok (VDict bob_widget)))
                           empty_database))))
  /\ forallb is_ascii_digit (lit "01") = true
  /\ id {| id := 1; order_customer_name := lit "Bob";
           order_item_name := lit "Widget";
           order_quantity := 1; order_total_price := float_of_ratio false 999 100;
           created_at := 1700000000 |}
     = value_of_digits (map (fun c => c - 48) (lit "01")).
Proof.
  apply (get_order_answers_the_row_asked_for calm (lit "01")
           (file (snd (dispatch (create_order calm (Ok (VDict bob_widget)))
                         empty_database)))
           _ (closed_frame
                (file (snd (dispatch (create_order calm (Ok (VDict bob_widget)))
                              empty_database))))).
  vm_compute. reflexivity.
Defined.

Lemma get_order_outside_counter_is_404_witness :
  dispatch (get_order calm (lit "999999")) empty_database
  = (error_response "Order not found" 404, closed_frame empty_database).
Proof.
  apply (get_order_outside_counter_is_404 calm (lit "999999") empty_database).
  - split; [simpl; lia|constructor].
  - reflexivity.
  - reflexivity.
  - reflexivity.
  - intros n H. vm_compute in H. injection H as <-. right. simpl. lia.
Defined.

(** ** The sample rows *)

(** The four values of a row that an INSERT binds. *)
Definition fields_of (o : order) : pystr * pystr * Z * float :=
  (order_customer_name o, order_item_name o, order_quantity o, order_total_price o).

(** [executemany] that succeeds appends one row per tuple, in order, with
    the ids that follow the counter. *)
Lemma executemany_ok (now : nat -> Z) (rows : list (pystr * pystr * Z * float)) :
  forall (db : database) (k : nat) (db' : database),
    executemany db now k rows = Ok db' ->
    map fields_of (orders db') = map fields_of (orders db) ++ rows
    /\ map id (orders db')
       = map id (orders db)
         ++ map (fun j => sqlite_sequence db + 1 + Z.of_nat j)
              (List.seq 0 (List.length rows))
    /\ sqlite_sequence db' = sqlite_sequence db + Z.of_nat (List.length rows).
Proof.
  induction rows as [|[[[c i] q] p] rest IH]; intros db k db'.
  - simpl. intros [= <-]. rewrite !app_nil_r. repeat split; lia.
  - cbn [executemany]. unfold bind.
    destruct (INSERT db (now k) c i q p) as [[db1 k1]|e] eqn:EI; [|discriminate].
    cbn [fst]. intros H. destruct (IH _ _ _ H) as (Hf & Hi & Hs).
    destruct (INSERT_ok _ _ _ _ _ _ _ _ EI) as (-> & _ & _ & ->).
    cbn [orders sqlite_sequence] in Hf, Hi, Hs.
    rewrite map_app in Hf, Hi. rewrite <- app_assoc in Hf, Hi.
    split; [exact Hf|]. split.
    + rewrite Hi. f_equal. cbn [map app id List.length List.seq].
      f_equal; [lia|]. rewrite <- seq_shift, map_map.
      apply map_ext. intros j. lia.
    + rewrite Hs. cbn [List.length]. lia.
Qed.

(** X14.  The sample rows go into an empty table only, once.  When
    [init_database] succeeds, running it again changes nothing; a table
    that had rows is left as it was; and an empty or absent table gets
    exactly the five rows of [sample_orders], in order, with the five ids
    that follow the AUTOINCREMENT counter. *)
Theorem init_database_runs_once
    (file : option database) (now now' : nat -> Z) (db : database) :
  init_database file now = Ok db ->
  init_database (Some db) now' = Ok db
  /\ (forall db0, file = Some db0 -> orders db0 <> [] -> db = db0)
  /\ (forall db0, file = None /\ db0 = empty_database
                  \/ file = Some db0 /\ orders db0 = [] ->
        map fields_of (orders db) = sample_orders
        /\ map id (orders db)
           = map (fun j => sqlite_sequence db0 + j) [1; 2; 3; 4; 5]
        /\ sqlite_sequence db = sqlite_sequence db0 + 5).
Proof.
  intros H.
  assert (G : forall db0, orders db0 = [] ->
                executemany db0 now 0 sample_orders = Ok db ->
                map fields_of (orders db) = sample_orders
                /\ map id (orders db)
                   = map (fun j => sqlite_sequence db0 + j) [1; 2; 3; 4; 5]
                /\ sqlite_sequence db = sqlite_sequence db0 + 5).
  { intros db0 E0 E. destruct (executemany_ok _ _ _ _ _ E) as (Hf & Hi & Hs).
    rewrite E0 in Hf, Hi. cbn [map app] in Hf, Hi.
    split; [exact Hf|]. split; [|exact Hs].
    rewrite Hi. cbn [sample_orders List.length List.seq map].
    repeat (apply f_equal2; [lia|]). reflexivity. }
  split; [|split].
  - unfold init_database in *.
    destruct (orders db) as [|o l] eqn:Eo; [|reflexivity].
    exfalso.
    set (db0 := match file with Some d => d | None => empty_database end) in H.
    destruct (orders db0) eqn:E0.
    + destruct (G db0 E0 H) as (Hf & _). discriminate Hf.
    + injection H as H. subst db. congruence.
  - intros db0 -> Hne. unfold init_database in H.
    destruct (orders db0); [congruence|]. congruence.
  - intros db0 [[-> ->]|[-> E0]]; unfold init_database in H.
    + apply G; [reflexivity|exact H].
    + rewrite E0 in H. apply G; assumption.
Qed.

Lemma init_database_runs_once_witness :
  let db := {| orders :=
                 map (fun x : Z * (pystr * pystr * Z * float) =>
                        let '(k, (c, i, q, p)) := x in
                        {| id := k; order_customer_name := c; order_item_name := i;
                           order_quantity := q; order_total_price := p;
                           created_at := 1700000000 |})
                     (combine [1; 2; 3; 4; 5] sample_orders);
               sqlite_sequence := 5 |} in
  init_database (Some db) (fun _ => 1700000060) = Ok db
  /\ (forall db0, @None database = Some db0 -> orders db0 <> [] -> db = db0)
  /\ (forall db0, @None database = None /\ db0 = empty_database
                  \/ @None database = Some db0 /\ orders db0 = [] ->
        map fields_of (orders db) = sample_orders
        /\ map id (orders db)
           = map (fun j => sqlite_sequence db0 + j) [1; 2; 3; 4; 5]
        /\ sqlite_sequence db = sqlite_sequence db0 + 5).
Proof.
  apply (init_database_runs_once None (fun _ => 1700000000) (fun _ => 1700000060)).
  vm_compute. reflexivity.
Defined.

(** ** Prices in cents *)

Lemma binary_round_aux_sign (s : bool) (m e : Z) (l : location) :
  binary_round_aux prec emax s m e l = S754_nan
  \/ binary_round_aux prec emax s m e l = S754_zero s
  \/ binary_round_aux prec emax s m e l = S754_infinity s
  \/ exists m' e', binary_round_aux prec emax s m e l = S754_finite s m' e'.
Proof.
  unfold binary_round_aux.
  destruct (shr_fexp prec emax m e l) as [mrs' e'].
  destruct (shr_fexp prec emax _ e' loc_Exact) as [mrs'' e''].
  destruct (shr_m mrs''); auto.
  destruct (e'' <=? emax - prec); eauto 10.
Qed.

(** A float of negative sign is below 0.01 when it is a number. *)
Lemma negative_below_min (n d : positive) :
  is_nan (float_of_ratio true n d) = true
  \/ float_lt (float_of_ratio true n d) float_0_01 = true.
Proof.
  unfold float_of_ratio.
  match goal with |- context [binary_round_aux prec emax true ?m ?e ?l] =>
    destruct (binary_round_aux_sign true m e l) as [E|[E|[E|(m' & e' & E)]]];
    rewrite E
  end; [left|right|right|right]; reflexivity.
Qed.

Section Cents.
Context {U : UnicodeData}.

(** A float within the two bounds of the price is a positive finite
    number. *)
Lemma within_bounds_finite (p : float) :
  SFleb float_0_01 p = true -> SFleb p float_1000000 = true ->
  exists m e, p = S754_finite false m e.
Proof.
  destruct p as [s|s| |s m e]; try discriminate.
  - destruct s; discriminate.
  - destruct s; [discriminate|]. eauto.
Qed.

(** X15.  A price that the validator passes has two decimals and lies
    within the bounds: it is a positive finite float, not below 0.01 and
    not above 1000000.00, that is the float nearest to a whole, positive
    number of cents divided by 100; or it is NaN, which both comparisons
    of the range check let through.  Zero, negative numbers, numbers
    outside the bounds and the infinities are never passed. *)
Theorem validated_price_is_whole_cents (v x : pyval) :
  validate_number v total_price = Ok (Some x, []) ->
  exists p, x = VFloat p
    /\ (is_nan p = true
        \/ (exists cents : positive, p = float_of_ratio false cents 100)
           /\ (exists m e, p = S754_finite false m e)
           /\ SFleb float_0_01 p = true /\ SFleb p float_1000000 = true).
Proof.
  intros H. destruct (validate_total_price_accepted v x H) as (y & _ & -> & Hlo & Hhi).
  exists (round2 y). split; [reflexivity|].
  destruct (is_nan (round2 y)) eqn:N; [left; reflexivity|right].
  assert (B1 : SFleb float_0_01 (round2 y) = true)
    by (apply SFltb_false_SFleb; [exact N|reflexivity|exact Hlo]).
  assert (B2 : SFleb (round2 y) float_1000000 = true)
    by (apply SFltb_false_SFleb; [reflexivity|exact N|exact Hhi]).
  split; [|split; [exact (within_bounds_finite _ B1 B2)|split; assumption]].
  destruct y as [s|s| |s m e]; cbn [round2] in *.
  - discriminate Hlo.
  - destruct s; discriminate.
  - discriminate N.
  - destruct (if 0 <=? e then 100 * Z.pos m * 2 ^ e
              else round_half_even (100 * Z.pos m) (2 ^ (- e))) as [|c|c];
      try discriminate Hlo.
    destruct s; [|exists c; reflexivity].
    destruct (negative_below_min c 100) as [N'|L]; congruence.
Qed.

End Cents.

Lemma validated_price_is_whole_cents_witness :
  exists p, VFloat (float_of_ratio false 1235 100) = VFloat p
    /\ (is_nan p = true
        \/ (exists cents : positive, p = float_of_ratio false cents 100)
           /\ (exists m e, p = S754_finite false m e)
           /\ SFleb float_0_01 p = true /\ SFleb p float_1000000 = true).
Proof.
  apply (validated_price_is_whole_cents (VStr (lit " 12.345e0 "))).
  vm_compute. reflexivity.
Defined.

(** ** Numbers written as text *)

Section Text.
Context {U : UnicodeData}.

Lemma to_ascii_digits (s : pystr) :
  forallb is_ascii_digit s = true -> map to_ascii s = s.
Proof.
  induction s as [|c r IH]; simpl; [reflexivity|].
  intros H. apply andb_prop in H. destruct H as [Hc Hr].
  rewrite (IH Hr). unfold to_ascii, is_ascii_digit in *.
  replace (c <? 127) with true by lia. reflexivity.
Qed.

Lemma digitpart_digits (s : pystr) :
  forall acc, forallb is_ascii_digit s = true ->
    digitpart s acc = (acc ++ digit_values s, []).
Proof.
  induction s as [|c r IH]; intros acc; simpl.
  - rewrite app_nil_r. reflexivity.
  - intros H. apply andb_prop in H. destruct H as [Hc Hr].
    rewrite Hc, (IH _ Hr), <- app_assoc. reflexivity.
Qed.

Lemma int_of_str_digits (s : pystr) :
  s <> [] -> forallb is_ascii_digit s = true ->
  int_of_str s
  = if int_max_str_digits <? len s then Raise ValueError
    else Ok (value_of_digits (digit_values s)).
Proof.
  intros Hne Hd. unfold int_of_str. rewrite (to_ascii_digits s Hd).
  destruct s as [|c r]; [congruence|].
  pose proof Hd as Hd'. simpl in Hd'. apply andb_prop in Hd'.
  destruct Hd' as [Hc _]. unfold is_ascii_digit in Hc.
  assert (Es : skip_space (c :: r) = c :: r).
  { simpl. unfold Py_ISSPACE.
    replace (9 <=? c) with true by lia. replace (c <=? 13) with false by lia.
    replace (c =? 32) with false by lia. reflexivity. }
  rewrite Es. unfold sign_of.
  replace (c =? 45) with false by lia. replace (c =? 43) with false by lia.
  rewrite (digitpart_digits (c :: r) [] Hd). cbn [app].
  unfold len, digit_values. rewrite length_map. reflexivity.
Qed.

(** X16.  A quantity may come as text.  A text of ASCII decimal digits
    with no more than 4300 of them is converted to the integer it writes
    (for the digits of a non-negative integer, that integer), so the text
    is accepted or rejected exactly as the number is; a longer text is
    refused by [int] and answered as an invalid format. *)
Theorem quantity_text_reads_as_number (s : pystr) :
  s <> [] -> forallb is_ascii_digit s = true ->
  (len s <= int_max_str_digits ->
   py_int (VStr s) = Ok (value_of_digits (digit_values s))
   /\ validate_number (VStr s) quantity
      = validate_number (VInt (value_of_digits (digit_values s))) quantity)
  /\ (int_max_str_digits < len s ->
      validate_number (VStr s) quantity
      = Ok (None, ["Invalid quantity format"%string]))
  /\ (forall n, 0 <= n -> s = str n -> value_of_digits (digit_values s) = n).
Proof.
  intros Hne Hd. pose proof (int_of_str_digits s Hne Hd) as E.
  split; [|split].
  - intros Hl. replace (int_max_str_digits <? len s) with false in E by lia.
    assert (E' : py_int (VStr s) = Ok (value_of_digits (digit_values s)))
      by exact E.
    split; [exact E'|]. unfold validate_number. cbn [field_eqb]. rewrite E'.
    reflexivity.
  - intros Hl. replace (int_max_str_digits <? len s) with true in E by lia.
    unfold validate_number. cbn [field_eqb py_int]. rewrite E. reflexivity.
  - intros n Hn ->. destruct n as [|p|p]; [reflexivity|apply value_of_str|lia].
Qed.

End Text.

Lemma quantity_text_reads_as_number_witness :
  (len (lit "250") <= int_max_str_digits ->
   py_int (VStr (lit "250")) = Ok (value_of_digits (digit_values (lit "250")))
   /\ validate_number (VStr (lit "250")) quantity
      = validate_number (VInt (value_of_digits (digit_values (lit "250")))) quantity)
  /\ (int_max_str_digits < len (lit "250") ->
      validate_number (VStr (lit "250")) quantity
      = Ok (None, ["Invalid quantity format"%string]))
  /\ (forall n, 0 <= n -> lit "250" = str n ->
        value_of_digits (digit_values (lit "250")) = n).
Proof.
  apply (quantity_text_reads_as_number (lit "250")).
  - discriminate.
  - reflexivity.
Defined.

(** ** A new order in the list *)

Lemma insert_desc_under_newest (o : order) (l : list order) :
  Forall (fun x => created_at x < created_at o) l ->
  fold_right insert_desc [o] l = o :: fold_right insert_desc [] l.
Proof.
  induction 1 as [|x l Hx _ IH]; simpl; [reflexivity|].
  rewrite IH. simpl. replace (created_at o <=? created_at x) with false by lia.
  reflexivity.
Qed.

Lemma order_by_newest_last (o : order) (l : list order) :
  Forall (fun x => created_at x < created_at o) l ->
  order_by_created_at_desc (l ++ [o]) = o :: order_by_created_at_desc l.
Proof.
  intros H. unfold order_by_created_at_desc. rewrite fold_right_app. simpl.
  apply insert_desc_under_newest. exact H.
Qed.

(** The ids of the table grow with the rows. *)
Definition ids_increasing (db : database) : Prop :=
  StronglySorted Z.lt (map id (orders db)).

Lemma StronglySorted_snoc (l : list Z) (a : Z) :
  StronglySorted Z.lt l -> Forall (fun x => x < a) l ->
  StronglySorted Z.lt (l ++ [a]).
Proof.
  induction 1 as [|x l Hl IH Hx]; intros Ha; simpl.
  - constructor; constructor.
  - inversion Ha as [|? ? Hxa Hla]; subst. constructor; [apply IH; exact Hla|].
    apply Forall_app. split; [exact Hx|]. constructor; [exact Hxa|constructor].
Qed.

Lemma StronglySorted_lt_NoDup (l : list Z) : StronglySorted Z.lt l -> NoDup l.
Proof.
  induction 1 as [|x l Hl IH Hx]; constructor; [|exact IH].
  intros Hin. rewrite Forall_forall in Hx. specialize (Hx x Hin). lia.
Qed.

Section NewOrder.
Context {U : UnicodeData}.

(** X17.  An order created later than every stored one heads the list.
    When a POST is answered 201 at a time after the timestamps of all the
    rows, the list read afterwards is the new row, with the id of the
    answer, followed by the list as it was before. *)
Theorem newest_order_heads_the_list
    (w w' : io) (json : result pyval) (db : database) (order_id : Z) (s : frame) :
  dispatch (create_order w json) db = (created order_id, s) ->
  Forall (fun x => created_at x < now w) (orders db) ->
  connect_fails w' = false -> execute_fails w' = false ->
  exists o rest,
    fst (dispatch (get_orders w') (file s))
    = {| body := JRows (o :: rest); status := 200 |}
    /\ id o = order_id /\ created_at o = now w
    /\ fst (dispatch (get_orders w') db) = {| body := JRows rest; status := 200 |}.
Proof.
  intros H Hnew Hc He.
  assert (G : forall d, fst (dispatch (get_orders w') d)
                        = {| body := JRows (order_by_created_at_desc (orders d));
                             status := 200 |}).
  { intros d. unfold dispatch, get_orders, try_finally, try_except, mbind,
      connect, execute_select, conn_close, ret.
    cbn [start file conn opened closed]. rewrite Hc, He. reflexivity. }
  unfold dispatch in H.
  destruct (create_order_outcome w json db)
    as [(data & c & i & q & p & db' & k & _ & _ & EI & E)|(r & s' & E & _ & Hr)];
    rewrite E in H.
  - assert (Hk : k = order_id) by (unfold created in H; congruence).
    assert (Hs : closed_frame db' = s) by congruence.
    subst k s. cbn [file closed_frame].
    destruct (INSERT_ok _ _ _ _ _ _ _ _ EI) as (_ & _ & _ & ->).
    do 2 eexists. rewrite !G. cbn [orders].
    rewrite order_by_newest_last by exact Hnew.
    split; [reflexivity|]. repeat split.
  - injection H as -> _. destruct Hr as [Hr|Hr]; discriminate Hr.
Qed.

(** X18.  Ids are never reused.  On a table whose ids grow with the
    rows and do not exceed the AUTOINCREMENT counter, a POST leaves a
    table of the same kind, whatever its answer: the ids still grow with
    the rows, so no two rows share one. *)
Theorem create_order_keeps_ids_increasing
    (w : io) (json : result pyval) (db : database) :
  ids_bounded db -> ids_increasing db ->
  let db' := file (snd (dispatch (create_order w json) db)) in
  ids_bounded db' /\ ids_increasing db' /\ NoDup (map id (orders db')).
Proof.
  intros Hb Hi. cbn zeta.
  assert (G : ids_bounded (file (snd (dispatch (create_order w json) db)))
              /\ ids_increasing (file (snd (dispatch (create_order w json) db)))).
  { unfold dispatch.
    destruct (create_order_outcome w json db)
      as [(data & c & i & q & p & db' & k & _ & _ & EI & ->)|(r & s & -> & Hs & _)].
    - cbn [fst snd file closed_frame].
      split; [exact (INSERT_keeps_ids_bounded _ _ _ _ _ _ _ _ Hb EI)|].
      destruct (INSERT_ok _ _ _ _ _ _ _ _ EI) as (-> & _ & _ & ->).
      unfold ids_increasing. cbn [orders]. rewrite map_app. cbn [map id].
      apply StronglySorted_snoc; [exact Hi|].
      destruct Hb as [_ HF]. apply Forall_map.
      eapply Forall_impl; [|exact HF]. simpl. intros x Hx. lia.
    - cbn [snd]. rewrite Hs. split; assumption. }
  destruct G as [G1 G2]. split; [exact G1|]. split; [exact G2|].
  apply StronglySorted_lt_NoDup. exact G2.
Qed.

End NewOrder.

Lemma newest_order_heads_the_list_witness :
  exists o rest,
    fst (dispatch (get_orders calm)
           (file (snd (dispatch (create_order calm (Ok (VDict bob_widget)))
                         empty_database))))
    = {| body := JRows (o :: rest); status := 200 |}
    /\ id o = 1 /\ created_at o = now calm
    /\ fst (dispatch (get_orders calm) empty_database)
       = {| body := JRows rest; status := 200 |}.
Proof.
  apply (newest_order_heads_the_list calm calm (Ok (VDict bob_widget))
           empty_database 1
           (snd (dispatch (create_order calm (Ok (VDict bob_widget)))
                   empty_database))).
  - vm_compute. reflexivity.
  - constructor.
  - reflexivity.
  - reflexivity.
Defined.

Lemma create_order_keeps_ids_increasing_witness :
  let db' := file (snd (dispatch (create_order calm (Ok (VDict bob_widget)))
                          empty_database)) in
  ids_bounded db' /\ ids_increasing db' /\ NoDup (map id (orders db')).
Proof.
  apply (create_order_keeps_ids_increasing calm (Ok (VDict bob_widget))
           empty_database).
  - split; [simpl; lia|constructor].
  - constructor.
Defined.
